(** * set_nasa_apod_wallpaper.py: a shallow embedding and its properties

    The script fetches the metadata of NASA's picture of the day, downloads
    the picture unless its save directory is already there, writes the
    picture, a description and a symbolic link, and hands the link to a
    wallpaper script.

    The program's own code ([ImageListing], [get_image_listing], [get_image],
    [main], and the block under [__main__] as [script_entry]) is translated
    statement by statement.  What it calls is modelled as follows.
    - Python values coming out of [Response.json()] are [pyval]s.  Strings
      are byte strings (UTF-8); the separators the program splits on are
      ASCII.  [str()] of a container and of an interpreter-raised exception
      is text the interpreter produces: it is an input of the model
      ([py_repr], [exn_text]).
    - [requests.get] and [subprocess.run] are oracles of the [world]; the
      script tests the response of [requests.get] for None, so the oracle
      may answer None.  What the wallpaper script does to the disk is not
      part of the run.  A run is the effect of [main] on a [state]: the
      disk and the trace of what was printed, requested and invoked.
    - pathlib is modelled as of Python 3.12, the first version that parses
      the f-strings of the source.  A path is absolute and is the list of its
      components, last component first.  The file system maps paths to
      nodes; a symbolic link is followed when it is the last component of a
      path (at most 40 links, as the kernel does), a path names its node
      directly otherwise: two spellings of one node through a linked
      directory, and "..", are outside the model.  Permissions and full
      disks are outside the model too.
    - The process ends with the status given to [exit], with 1 on an
      uncaught exception, with 0 otherwise. *)

From Stdlib Require Import String Ascii ZArith Lia.
From Stdlib.Strings Require Import Byte.
From stdpp Require Import gmap strings list fin_maps option.

Open Scope string_scope.

(* ===================================================================== *)
(** * Python strings *)
(* ===================================================================== *)

Definition nl : string := String (ascii_of_nat 10) "".
Definition tab : string := String (ascii_of_nat 9) "".

(** [s.split(sep)] for a separator of one character: never empty, one more
    piece than there are separators. *)
Fixpoint split (sep : ascii) (s : string) : list string :=
  match s with
  | EmptyString => [""]
  | String c r =>
      if Ascii.eqb c sep then "" :: split sep r
      else match split sep r with
           | h :: t => String c h :: t
           | [] => [String c ""]
           end
  end.

(** [needle in hay] on two strings. *)
Fixpoint str_contains (needle hay : string) : bool :=
  String.prefix needle hay ||
  match hay with
  | EmptyString => false
  | String _ r => str_contains needle r
  end.

(** [s.startswith(c)] for one character. *)
Definition starts_with (c : ascii) (s : string) : bool :=
  match s with
  | EmptyString => false
  | String a _ => Ascii.eqb a c
  end.

(** [c in s]: the character occurs in the string. *)
Fixpoint has_char (c : ascii) (s : string) : bool :=
  match s with
  | EmptyString => false
  | String a r => Ascii.eqb a c || has_char c r
  end.

(* ===================================================================== *)
(** * Exceptions and results *)
(* ===================================================================== *)

(** Every class below derives from [Exception]: [except Exception] catches
    them all.  [SystemExit] does not and is an outcome of its own
    ([SysExit] below). *)
Inductive exn :=
| Exception (msg : string)          (* raise Exception(msg) in the script *)
| RequestException (msg : string)   (* raised by requests *)
| KeyError (key : string)
| IndexError
| TypeError
| AttributeError
| ValueError
| RuntimeError
| FileExistsError
| FileNotFoundError
| NotADirectoryError
| IsADirectoryError
| OSError (msg : string).

Inductive result (A : Type) :=
| Ok (a : A)
| Err (e : exn).
Arguments Ok {A} a.
Arguments Err {A} e.

#[global] Instance result_ret : MRet result := fun _ a => Ok a.
#[global] Instance result_bind : MBind result := fun _ _ k r =>
  match r with
  | Ok a => k a
  | Err e => Err e
  end.

(* ===================================================================== *)
(** * Python values *)
(* ===================================================================== *)

(** What [Response.json()] returns.  [PAtom] is [None], a boolean or a
    number, and carries its [str()]. *)
#[warnings="-register-all"]
Inductive pyval :=
| PStr (s : string)
| PDict (d : gmap string pyval)
| PList (l : list pyval)
| PAtom (shown : string).

(** [v == "s"] for a string literal: only a string is equal to a string. *)
Definition py_eq_str (v : pyval) (s : string) : bool :=
  match v with
  | PStr t => String.eqb t s
  | _ => false
  end.

(** [json.get(key, default)]: a method of dictionaries only. *)
Definition py_get (json : pyval) (key : string) (default : pyval) : result pyval :=
  match json with
  | PDict d => Ok (from_option id default (d !! key))
  | _ => Err AttributeError
  end.

(** [key in v] *)
Definition py_in (key : string) (v : pyval) : result bool :=
  match v with
  | PDict d => Ok (bool_decide (is_Some (d !! key)))
  | PList l => Ok (existsb (fun x => py_eq_str x key) l)
  | PStr s => Ok (str_contains key s)
  | PAtom _ => Err TypeError
  end.

(** [v[key]] for a string key *)
Definition py_getitem (v : pyval) (key : string) : result pyval :=
  match v with
  | PDict d => match d !! key with
               | Some x => Ok x
               | None => Err (KeyError key)
               end
  | _ => Err TypeError
  end.

(** [l[-1]] *)
Definition py_last {A} (l : list A) : result A :=
  match list.last l with
  | Some x => Ok x
  | None => Err IndexError
  end.

(** [v.split(sep)]: a method of strings only. *)
Definition py_split (v : pyval) (sep : ascii) : result (list string) :=
  match v with
  | PStr s => Ok (split sep s)
  | _ => Err AttributeError
  end.

(* ===================================================================== *)
(** * Paths *)
(* ===================================================================== *)

(** An absolute path, last component first: [/home/u/APOD] is
    ["APOD"; "u"; "home"] and the root is []. *)
Abbreviation path := (list string).

Definition path_str (p : path) : string :=
  "/" ++ String.concat "/" (rev p).

(** The components pathlib keeps of a string: empty ones and "." go. *)
Definition components (s : string) : list string :=
  List.filter (fun c => negb (String.eqb c "") && negb (String.eqb c "."))
    (split "/" s).

(** [p / s]: an absolute [s] replaces [p]. *)
Definition joinpath (p : path) (s : string) : path :=
  if starts_with "/" s then rev (components s)
  else rev (components s) ++ p.

(** [PurePath.suffix] of a final component: from its last dot on, unless
    that dot is its first or its last character. *)
Definition stem (name : string) : string :=
  let pieces := split "." name in
  let before := String.concat "." (removelast pieces) in
  match list.last pieces with
  | Some after =>
      if negb (String.eqb before "") && negb (String.eqb after "")
         && Nat.ltb 1 (length pieces)
      then before else name
  | None => name
  end.

(** [p.with_suffix(suffix)] *)
Definition with_suffix (p : path) (suffix : string) : result path :=
  if has_char "/" suffix then Err ValueError
  else if (negb (String.eqb suffix "") && negb (starts_with "." suffix))
          || String.eqb suffix "." then Err ValueError
  else match p with
       | [] => Err ValueError
       | name :: parent => Ok ((stem name ++ suffix) :: parent)
       end.

(* ===================================================================== *)
(** * The file system *)
(* ===================================================================== *)

Inductive content :=
| Bytes (b : list byte)
| Text (s : string).

Inductive node :=
| Dir
| File (c : content)
| Link (target : path).

Abbreviation filesystem := (gmap path node).

Module Fs.

(** The root is a directory of every file system. *)
Definition node_at (fs : filesystem) (p : path) : option node :=
  match p with
  | [] => Some Dir
  | _ => fs !! p
  end.

Inductive resolved :=
| Found (p : path) (n : node)
| Missing (p : path)
| Loop.

(** Follow the links at the end of a path, [fuel] of them at most. *)
Fixpoint walk (fuel : nat) (fs : filesystem) (p : path) : resolved :=
  match node_at fs p with
  | None => Missing p
  | Some (Link t) =>
      match fuel with
      | O => Loop
      | S fuel' => walk fuel' fs t
      end
  | Some n => Found p n
  end.

Definition max_links : nat := 40.

(** [os.stat]: [None] when it raises. *)
Definition stat (fs : filesystem) (p : path) : option node :=
  match walk max_links fs p with
  | Found _ n => Some n
  | _ => None
  end.

Definition exists_ (fs : filesystem) (p : path) : bool :=
  bool_decide (is_Some (stat fs p)).

Definition is_file (fs : filesystem) (p : path) : bool :=
  match stat fs p with
  | Some (File _) => true
  | _ => false
  end.

Definition is_dir (fs : filesystem) (p : path) : bool :=
  match stat fs p with
  | Some Dir => true
  | _ => false
  end.

(** [Path.resolve()], not strict: the end of the chain of links, there or
    not; a loop raises. *)
Definition resolve (fs : filesystem) (p : path) : result path :=
  match walk max_links fs p with
  | Found q _ => Ok q
  | Missing q => Ok q
  | Loop => Err RuntimeError
  end.

(** The directory a new entry goes into has to be one. *)
Definition check_parent (fs : filesystem) (parent : path) : result unit :=
  match walk max_links fs parent with
  | Found _ Dir => Ok tt
  | Found _ _ => Err NotADirectoryError
  | Missing _ => Err FileNotFoundError
  | Loop => Err (OSError "ELOOP")
  end.

(** The entry [p] is made to be [n], when its parent is a directory. *)
Definition create (fs : filesystem) (p : path) (n : node) : result filesystem :=
  match p with
  | [] => Err FileExistsError
  | _ :: parent => _ ← check_parent fs parent; Ok (<[p := n]> fs)
  end.

Definition os_mkdir (fs : filesystem) (p : path) : result filesystem :=
  match p with
  | [] => Err FileExistsError
  | _ :: parent =>
      _ ← check_parent fs parent;
      match node_at fs p with
      | Some _ => Err FileExistsError
      | None => Ok (<[p := Dir]> fs)
      end
  end.

(** The [except OSError] arm of [Path.mkdir]. *)
Definition mkdir_failed (fs : filesystem) (p : path) (exist_ok : bool) (e : exn)
  : result filesystem :=
  if negb exist_ok || negb (is_dir fs p) then Err e else Ok fs.

(** [p.mkdir(parents=True, exist_ok=exist_ok)]: on FileNotFoundError the
    parent is made with [parents=True, exist_ok=True], then [p] with
    [parents=False]. *)
Fixpoint mkdir_parents (fs : filesystem) (p : path) (exist_ok : bool)
  : result filesystem :=
  match os_mkdir fs p with
  | Ok fs' => Ok fs'
  | Err FileNotFoundError =>
      match p with
      | [] => Err FileNotFoundError
      | _ :: parent =>
          fs1 ← mkdir_parents fs parent true;
          match os_mkdir fs1 p with
          | Ok fs' => Ok fs'
          | Err FileNotFoundError => Err FileNotFoundError
          | Err e => mkdir_failed fs1 p exist_ok e
          end
      end
  | Err e => mkdir_failed fs p exist_ok e
  end.

(** [open(p, "w")] then [write]: through the links at [p]. *)
Definition write_file (fs : filesystem) (p : path) (c : content) : result filesystem :=
  match walk max_links fs p with
  | Found q (File _) => Ok (<[q := File c]> fs)
  | Found _ _ => Err IsADirectoryError
  | Missing q => create fs q (File c)
  | Loop => Err (OSError "ELOOP")
  end.

(** [link.symlink_to(target)]: the entry must be new. *)
Definition symlink_to (fs : filesystem) (link target : path) : result filesystem :=
  match link with
  | [] => Err FileExistsError
  | _ :: parent =>
      _ ← check_parent fs parent;
      match node_at fs link with
      | Some _ => Err FileExistsError
      | None => Ok (<[link := Link target]> fs)
      end
  end.

(** Every entry lies in a directory. *)
Definition wf (fs : filesystem) : Prop :=
  map_Forall (fun p _ => is_dir fs (tail p) = true) fs.

#[global] Instance wf_dec fs : Decision (wf fs).
Proof. unfold wf. apply _. Defined.

End Fs.

(* ===================================================================== *)
(** * The world outside the script *)
(* ===================================================================== *)

Record response := Response {
  resp_content : list byte;        (* [.content] *)
  resp_json : result pyval         (* [.json()] *)
}.

Record world := World {
  home : path;                     (* what "~" expands to *)
  cwd : path;
  requests_get : pyval -> result (option response);
  subprocess_run : list string -> option exn;
  py_repr : pyval -> string;       (* [str()] of a container *)
  exn_text : exn -> string         (* [str()] of an exception not raised by the script *)
}.

(** [f"{v}"] *)
Definition py_str (w : world) (v : pyval) : string :=
  match v with
  | PStr s => s
  | PAtom shown => shown
  | _ => py_repr w v
  end.

(** [f"{e}"] *)
Definition exn_str (w : world) (e : exn) : string :=
  match e with
  | Exception msg => msg
  | _ => exn_text w e
  end.

(* ===================================================================== *)
(** * ImageListing *)
(* ===================================================================== *)

Module ImageListing.

Record t := Build {
  date : pyval;
  explanation : pyval;
  media_type : pyval;
  title : pyval;
  url : pyval
}.

(** The five assignments; the result is [self] after them.  A [json]
    without [get] raises at the first one. *)
Definition from_api_resp_json (json : pyval) : result t :=
  date ← py_get json "date" (PStr "");
  explanation ← py_get json "explanation" (PStr "");
  media_type ← py_get json "media_type" (PStr "");
  title ← py_get json "title" (PStr "");
  url ← py_get json "hdurl" (PStr "");
  Ok (Build date explanation media_type title url).

(** [__init__(self, contents={})] *)
Definition init (contents : pyval) : result t :=
  from_api_resp_json contents.

Definition init_default : result t := init (PDict ∅).

Definition is_image (self : t) : bool :=
  py_eq_str (media_type self) "image".

Definition save_name (w : world) (self : t) : result string :=
  pieces ← py_split (url self) "/";
  remote_file_name ← py_last pieces;
  Ok (py_str w (date self) ++ "_" ++ remote_file_name).

End ImageListing.

(* ===================================================================== *)
(** * Runs: state, outcomes and the monad of the script *)
(* ===================================================================== *)

Inductive endpoint := ApodEndpoint | ImageEndpoint.

(** What a run does that is seen from outside, oldest first in a trace. *)
Inductive event :=
| EvPrint (line : string)
| EvGet (which : endpoint) (url : pyval)
| EvRun (argv : list string).

Record state := State {
  files : filesystem;
  trace : list event
}.

Inductive outcome (A : Type) :=
| Return (a : A)
| Raise (e : exn)
| SysExit (code : Z).
Arguments Return {A} a.
Arguments Raise {A} e.
Arguments SysExit {A} code.

Definition M (A : Type) : Type := state -> outcome A * state.

#[global] Instance M_ret : MRet M := fun _ a st => (Return a, st).
#[global] Instance M_bind : MBind M := fun _ _ k m st =>
  match m st with
  | (Return a, st') => k a st'
  | (Raise e, st') => (Raise e, st')
  | (SysExit c, st') => (SysExit c, st')
  end.

Definition raise {A} (e : exn) : M A := fun st => (Raise e, st).

(** [exit(code)] raises SystemExit, which no handler of the script catches. *)
Definition exit {A} (code : Z) : M A := fun st => (SysExit code, st).

Definition emit (ev : event) : M unit :=
  fun st => (Return tt, State (files st) (trace st ++ [ev])).

Definition print (line : string) : M unit := emit (EvPrint line).

Definition lift {A} (r : result A) : M A :=
  match r with
  | Ok a => mret a
  | Err e => raise e
  end.

Definition fs_read {A} (f : filesystem -> A) : M A :=
  fun st => (Return (f (files st)), st).

Definition fs_update (f : filesystem -> result filesystem) : M unit :=
  fun st =>
    match f (files st) with
    | Ok fs' => (Return tt, State fs' (trace st))
    | Err e => (Raise e, st)
    end.

(** [try: m  except Exception as e: handler e] *)
Definition try_except {A} (m : M A) (handler : exn -> M A) : M A :=
  fun st =>
    match m st with
    | (Raise e, st') => handler e st'
    | r => r
    end.

(** The status the process ends with: an uncaught exception gives 1. *)
Definition exit_status {A} (o : outcome A) : Z :=
  match o with
  | Return _ => 0
  | Raise _ => 1
  | SysExit code => code
  end.

(* ===================================================================== *)
(** * The script *)
(* ===================================================================== *)

Section Script.
Variable w : world.

Definition http_get (which : endpoint) (url : pyval) : M (option response) :=
  emit (EvGet which url);; lift (requests_get w url).

Definition run (argv : list string) : M unit :=
  emit (EvRun argv);;
  match subprocess_run w argv with
  | Some e => raise e
  | None => mret tt
  end.

Definition api_url : string := "https://api.nasa.gov/planetary/apod?api_key=".

Definition error_message (code : pyval) : string :=
  "API call was invalid but to the correct endpoint."
  ++ " error returned [" ++ py_str w code ++ "]".

Definition get_image_listing (api_key : string) : M ImageListing.t :=
  get_apod_resp ← http_get ApodEndpoint (PStr (api_url ++ api_key));
  get_apod_resp_dict ←
    match get_apod_resp with
    | Some r => lift (resp_json r)
    | None => raise (Exception "Failed to hit apod endpoint")
    end;
  has_error ← lift (py_in "error" get_apod_resp_dict);
  if has_error : bool then
    error ← lift (py_getitem get_apod_resp_dict "error");
    code ← lift (py_getitem error "code");
    raise (Exception (error_message code))
  else
    contents ←
      match get_apod_resp with
      | Some r => lift (resp_json r)
      | None => raise AttributeError
      end;
    lift (ImageListing.init contents).

Definition get_image (image_listing : ImageListing.t) : M (list byte) :=
  img_resp ← http_get ImageEndpoint (ImageListing.url image_listing);
  match img_resp with
  | None => raise (Exception "Failed to hit image endpoint")
  | Some r => mret (resp_content r)
  end.

(** [Path("~/APOD").expanduser()] and [Path("~/Pictures/APOD").expanduser()] *)
Definition images_save_dir : path := joinpath (home w) "APOD".
Definition links_save_dir : path := joinpath (home w) "Pictures/APOD".

(** [Path("./setWallpaper.sh")], made absolute *)
Definition wallpaper_script_path : path := joinpath (cwd w) "./setWallpaper.sh".

Definition description (img_listing : ImageListing.t) : string :=
  py_str w (ImageListing.title img_listing) ++ nl ++ nl
  ++ py_str w (ImageListing.explanation img_listing) ++ nl.

(** Lines 111-122 of [main]: the body of
    [if not img_save_location.exists()]. *)
Definition download_and_save (img_listing : ImageListing.t)
    (img_save_location link_save_location : path) : M unit :=
  fs_update (fun fs => Fs.mkdir_parents fs img_save_location false);;
  img_data ← get_image img_listing;
  img_file_extension ←
    lift (pieces ← py_split (ImageListing.url img_listing) ".";
          last_piece ← py_last pieces;
          Ok ("." ++ last_piece));
  image_file ← lift (with_suffix (joinpath img_save_location "image") img_file_extension);
  fs_update (fun fs => Fs.write_file fs image_file (Bytes img_data));;
  fs_update (fun fs => Fs.write_file fs (joinpath img_save_location "description.txt")
                         (Text (description img_listing)));;
  fs_update (fun fs => Fs.symlink_to fs link_save_location
                         (joinpath img_save_location "image")).

(** Lines 105-133 of [main]: from "Downloading image" to the end. *)
Definition save_and_set_wallpaper (wallpaper_script : path)
    (img_listing : ImageListing.t) : M unit :=
  print "Downloading image";;
  save_name ← lift (ImageListing.save_name w img_listing);
  let img_save_location := joinpath images_save_dir save_name in
  save_name' ← lift (ImageListing.save_name w img_listing);
  let link_save_location := joinpath links_save_dir save_name' in
  there ← fs_read (fun fs => Fs.exists_ fs img_save_location);
  (if negb there then
     download_and_save img_listing img_save_location link_save_location
   else
     print "The image does not need to be downloaded");;
  print "Setting wallpaper";;
  run [path_str wallpaper_script; path_str link_save_location].

(** Lines 76-100 of [main], then the rest.  The handler of the [try]
    leaves by [exit]: what follows it is the [else] branch. *)
Definition main (api_key : option string) : M unit :=
  match api_key with
  | None => print "No API key provided";; exit 1
  | Some api_key =>
    wallpaper_script ← fs_read (fun fs => Fs.resolve fs wallpaper_script_path) ≫= lift;
    script_is_file ← fs_read (fun fs => Fs.is_file fs wallpaper_script);
    if negb script_is_file then
      print "Wallpaper setting script not found";; exit 1
    else
    print "Getting daily-image listing";;
    img_listing ←
      try_except (get_image_listing api_key)
        (fun e => print ("Failed to get image listing: " ++ exn_str w e);; exit 1);
    print (tab ++ "Title: " ++ py_str w (ImageListing.title img_listing));;
    if negb (ImageListing.is_image img_listing) then
      print "Not an image today";; exit 1
    else
      save_and_set_wallpaper wallpaper_script img_listing
  end.

End Script.

(* ===================================================================== *)
(** * Vocabulary of the specification *)
(* ===================================================================== *)

(** The URLs of the GETs a trace sends to the image endpoint. *)
Fixpoint downloads (tr : list event) : list pyval :=
  match tr with
  | [] => []
  | EvGet ImageEndpoint u :: tr' => u :: downloads tr'
  | _ :: tr' => downloads tr'
  end.

(** The GETs of a trace, whatever the endpoint. *)
Fixpoint network_calls (tr : list event) : list event :=
  match tr with
  | [] => []
  | EvGet which u :: tr' => EvGet which u :: network_calls tr'
  | _ :: tr' => network_calls tr'
  end.

(** The invocations of the wallpaper script in a trace. *)
Fixpoint invocations (tr : list event) : list (list string) :=
  match tr with
  | [] => []
  | EvRun argv :: tr' => argv :: invocations tr'
  | _ :: tr' => invocations tr'
  end.

(** "The last path segment of [u] is [seg]", in the words of the
    specification: what follows the last "/" of [u], all of [u] when it has
    none. *)
Definition last_path_segment (u seg : string) : Prop :=
  has_char "/" seg = false /\
  exists before, u = before ++ seg /\
    (before = "" \/ exists before', before = before' ++ "/").

(** "[text] contains [part]" *)
Definition contains (text part : string) : Prop :=
  exists before after, text = before ++ part ++ after.

(* ===================================================================== *)
(** * The example of the specification *)
(* ===================================================================== *)

Module Sample.

(** [{"date":"2024-01-01","media_type":"image","title":"T",
      "explanation":"E","hdurl":"http://x/y/pic.jpg"}] *)
Definition fields : gmap string pyval :=
  list_to_map
    [("date", PStr "2024-01-01"); ("media_type", PStr "image");
     ("title", PStr "T"); ("explanation", PStr "E");
     ("hdurl", PStr "http://x/y/pic.jpg")].

Definition picture : list byte := [x89; x50; x4e; x47].

Definition net (body : pyval) (url : pyval) : result (option response) :=
  match url with
  | PStr u =>
      if String.eqb u (api_url ++ "KEY")
      then Ok (Some (Response [] (Ok body)))
      else if String.eqb u "http://x/y/pic.jpg"
      then Ok (Some (Response picture (Err ValueError)))
      else Err (RequestException "unreachable")
  | _ => Err (RequestException "no url")
  end.

(** A machine whose user is /home/user, started in /home/user/apod, on
    which the metadata endpoint answers [body]. *)
Definition machine (body : pyval) : world :=
  World ["user"; "home"] ["apod"; "user"; "home"] (net body)
    (fun _ => None) (fun _ => "") (fun _ => "").

Definition w : world := machine (PDict fields).

(** A disk with the wallpaper script and ~/Pictures, without ~/APOD and
    without ~/Pictures/APOD. *)
Definition bare_disk : filesystem :=
  list_to_map
    [(["home"], Dir); (["user"; "home"], Dir);
     (["apod"; "user"; "home"], Dir);
     (["setWallpaper.sh"; "apod"; "user"; "home"], File (Text "#!/bin/sh"));
     (["Pictures"; "user"; "home"], Dir)].

(** The same with the links directory ~/Pictures/APOD. *)
Definition disk : filesystem :=
  <[ ["APOD"; "Pictures"; "user"; "home"] := Dir ]> bare_disk.

(** The same once the picture of 2024-01-01 has its save directory. *)
Definition disk_with_save_dir : filesystem :=
  <[ ["2024-01-01_pic.jpg"; "APOD"; "user"; "home"] := Dir ]>
    (<[ ["APOD"; "user"; "home"] := Dir ]> disk).

(** The body the endpoint answers to a key it does not know. *)
Definition refusal : gmap string pyval :=
  {[ "error" := PDict {[ "code" := PStr "API_KEY_INVALID" ]} ]}.

(** The save directory of that picture. *)
Definition save_dir : path := ["2024-01-01_pic.jpg"; "APOD"; "user"; "home"].

(** [bare_disk] after [save_dir.mkdir(parents=True)]. *)
Definition bare_disk_with_save_dir : filesystem :=
  match Fs.mkdir_parents bare_disk save_dir false with
  | Ok fs => fs
  | Err _ => bare_disk
  end.

(** Where the script puts the link to that picture. *)
Definition link : path := ["2024-01-01_pic.jpg"; "APOD"; "Pictures"; "user"; "home"].

End Sample.

(* ===================================================================== *)
(** * The entry point *)
(* ===================================================================== *)

Definition newline : ascii := ascii_of_nat 10.
Definition carriage_return : ascii := ascii_of_nat 13.

(** What reading in text mode makes of the ends of lines: "\r\n" and "\r"
    become "\n". *)
Fixpoint universal_newlines (s : string) : string :=
  match s with
  | EmptyString => EmptyString
  | String a r =>
      if Ascii.eqb a carriage_return then
        match r with
        | String b r' =>
            if Ascii.eqb b newline then String newline (universal_newlines r')
            else String newline (universal_newlines r)
        | EmptyString => String newline EmptyString
        end
      else String a (universal_newlines r)
  end.

(** [s.lstrip(c)], [s.rstrip(c)] and [s.strip(c)] for one character. *)
Fixpoint lstrip (c : ascii) (s : string) : string :=
  match s with
  | EmptyString => EmptyString
  | String a r => if Ascii.eqb a c then lstrip c r else s
  end.

Fixpoint rstrip (c : ascii) (s : string) : string :=
  match s with
  | EmptyString => EmptyString
  | String a r =>
      match rstrip c r with
      | EmptyString => if Ascii.eqb a c then EmptyString else String a EmptyString
      | r' => String a r'
      end
  end.

Definition strip (c : ascii) (s : string) : string := rstrip c (lstrip c s).

(** [s.endswith(c)] for one character. *)
Fixpoint ends_with (c : ascii) (s : string) : bool :=
  match s with
  | EmptyString => false
  | String a EmptyString => Ascii.eqb a c
  | String _ r => ends_with c r
  end.

(** [p.open()]: for reading, through the links at [p]. *)
Definition open_read (fs : filesystem) (p : path) : result content :=
  match Fs.walk Fs.max_links fs p with
  | Fs.Found _ (File c) => Ok c
  | Fs.Found _ _ => Err IsADirectoryError
  | Fs.Missing _ => Err FileNotFoundError
  | Fs.Loop => Err (OSError "ELOOP")
  end.

Section Entry.
Variable w : world.

(** The codec of the locale, for a file that was not written as text. *)
Variable decode : list byte -> result string.

(** [f.read()] on a file opened in text mode. *)
Definition read (c : content) : result string :=
  match c with
  | Text s => Ok (universal_newlines s)
  | Bytes b => text ← decode b; Ok (universal_newlines text)
  end.

(** [Path("./api_key.txt")], made absolute *)
Definition api_key_path : path := joinpath (cwd w) "./api_key.txt".

(** The block under [if __name__ == "__main__"]. *)
Definition script_entry : M unit :=
  f ← fs_read (fun fs => open_read fs api_key_path) ≫= lift;
  text ← lift (read f);
  let api_key := strip newline text in
  main w (Some api_key).

End Entry.

(* ===================================================================== *)
(** * More responses and disks to run the script on *)
(* ===================================================================== *)

Module Cases.

(** A network on which every URL but the metadata one answers the picture. *)
Definition open_net (body : pyval) (url : pyval) : result (option response) :=
  match url with
  | PStr u =>
      if String.eqb u (api_url ++ "KEY")
      then Ok (Some (Response [] (Ok body)))
      else Ok (Some (Response Sample.picture (Err ValueError)))
  | _ => Err (RequestException "no url")
  end.

Definition machine (body : pyval) : world :=
  World ["user"; "home"] ["apod"; "user"; "home"] (open_net body)
    (fun _ => None) (fun _ => "") (fun _ => "").

(** A machine without network. *)
Definition offline : world :=
  World ["user"; "home"] ["apod"; "user"; "home"]
    (fun _ => Err (RequestException "no route to host"))
    (fun _ => None) (fun _ => "") (fun _ => "").

(** The example with a URL whose last segment has no dot. *)
Definition no_extension : gmap string pyval :=
  <["hdurl" := PStr "http://x.y/pic"]> Sample.fields.

(** The example without its "hdurl". *)
Definition no_hdurl : gmap string pyval := delete "hdurl" Sample.fields.

(** A refusal that carries no code. *)
Definition plain_refusal : gmap string pyval :=
  {[ "error" := PStr "over the rate limit" ]}.

(** The disk of the example with a key file, "KEY" and a newline. *)
Definition disk_with_key : filesystem :=
  <[ ["api_key.txt"; "apod"; "user"; "home"] := File (Text ("KEY" ++ nl)) ]> Sample.disk.

Definition no_codec (b : list byte) : result string := Err ValueError.

End Cases.

(* ===================================================================== *)
(** * Running the monad *)
(* ===================================================================== *)

Lemma run_bind {A B} (m : M A) (k : A -> M B) st :
  (m ≫= k) st =
  match m st with
  | (Return a, st') => k a st'
  | (Raise e, st') => (Raise e, st')
  | (SysExit c, st') => (SysExit c, st')
  end.
Proof. reflexivity. Qed.

Lemma run_ret {A} (a : A) st : (mret a : M A) st = (Return a, st).
Proof. reflexivity. Qed.

Lemma run_raise {A} e st : (raise e : M A) st = (Raise e, st).
Proof. reflexivity. Qed.

Lemma run_exit {A} c st : (exit c : M A) st = (SysExit c, st).
Proof. reflexivity. Qed.

Lemma run_emit ev st :
  emit ev st = (Return tt, State (files st) (trace st ++ [ev])).
Proof. reflexivity. Qed.

Lemma run_print line st :
  print line st = (Return tt, State (files st) (trace st ++ [EvPrint line])).
Proof. reflexivity. Qed.

Lemma run_lift {A} (r : result A) st :
  lift r st = match r with Ok a => (Return a, st) | Err e => (Raise e, st) end.
Proof. by destruct r. Qed.

Lemma run_fs_read {A} (f : filesystem -> A) st :
  fs_read f st = (Return (f (files st)), st).
Proof. reflexivity. Qed.

Lemma run_fs_update f st :
  fs_update f st =
  match f (files st) with
  | Ok fs' => (Return tt, State fs' (trace st))
  | Err e => (Raise e, st)
  end.
Proof. reflexivity. Qed.

Create Rewrite HintDb step.
#[export] Hint Rewrite @run_bind @run_ret @run_raise @run_exit run_emit run_print
  @run_lift @run_fs_read run_fs_update : step.

(** Runs are stepped through with the file system, the paths and the text
    of what is printed left folded. *)
Arguments Fs.walk : simpl never.
Arguments Fs.stat : simpl never.
Arguments Fs.exists_ : simpl never.
Arguments Fs.is_file : simpl never.
Arguments Fs.is_dir : simpl never.
Arguments Fs.resolve : simpl never.
Arguments Fs.check_parent : simpl never.
Arguments Fs.create : simpl never.
Arguments Fs.os_mkdir : simpl never.
Arguments Fs.mkdir_parents : simpl never.
Arguments Fs.write_file : simpl never.
Arguments Fs.symlink_to : simpl never.
Arguments joinpath : simpl never.
Arguments path_str : simpl never.
Arguments with_suffix : simpl never.
Arguments wallpaper_script_path : simpl never.
Arguments images_save_dir : simpl never.
Arguments links_save_dir : simpl never.
Arguments py_str : simpl never.
Arguments exn_str : simpl never.
Arguments description : simpl never.
Arguments error_message : simpl never.
Arguments ImageListing.save_name : simpl never.
Arguments ImageListing.is_image : simpl never.
Arguments ImageListing.init : simpl never.
Arguments get_image_listing : simpl never.

(** One step of a run: unfold the binds and the primitives in sight. *)
Ltac step := repeat (autorewrite with step; simpl).

(* ===================================================================== *)
(** * Strings: what [split] returns *)
(* ===================================================================== *)

Lemma split_nonempty sep s : split sep s <> [].
Proof.
  destruct s as [|c r]; simpl; [discriminate|].
  destruct (Ascii.eqb c sep); [discriminate|].
  destruct (split sep r); discriminate.
Qed.

Lemma has_char_app c s t : has_char c (s ++ t) = has_char c s || has_char c t.
Proof.
  induction s as [|a s IH]; simpl; [reflexivity|].
  rewrite IH. apply orb_assoc.
Qed.

Lemma split_no_sep sep s : has_char sep s = false -> split sep s = [s].
Proof.
  induction s as [|a s IH]; simpl; [done|].
  destruct (Ascii.eqb a sep); simpl; [done|].
  intros H. by rewrite IH.
Qed.

Lemma split_sep sep s :
  has_char sep s = true -> exists h h' t, split sep s = h :: h' :: t.
Proof.
  induction s as [|a s IH]; simpl; [done|].
  destruct (Ascii.eqb a sep); simpl.
  - intros _. destruct (split sep s) as [|h t] eqn:E.
    + by destruct (split_nonempty sep s).
    + by exists "", h, t.
  - intros H. destruct (IH H) as (h & h' & t & ->). by exists (String a h), h', t.
Qed.

Lemma last_split_cons sep c r :
  list.last (split sep (String c r)) =
  if Ascii.eqb c sep || has_char sep r then list.last (split sep r)
  else Some (String c r).
Proof.
  simpl. destruct (Ascii.eqb c sep); simpl.
  - destruct (split sep r) eqn:E; [by destruct (split_nonempty sep r)|done].
  - destruct (has_char sep r) eqn:H.
    + destruct (split_sep _ _ H) as (h & h' & t & ->). done.
    + by rewrite (split_no_sep _ _ H).
Qed.

(** The last piece has no separator in it and ends the string, right after a
    separator when there is one. *)
Lemma last_split sep s :
  exists before piece,
    list.last (split sep s) = Some piece /\
    s = before ++ piece /\
    has_char sep piece = false /\
    (before = "" \/ exists before', before = before' ++ String sep "").
Proof.
  induction s as [|c r (before & piece & Hlast & Heq & Hno & Hbefore)].
  - exists "", "". simpl. auto.
  - rewrite last_split_cons.
    destruct (Ascii.eqb c sep) eqn:Hc; simpl.
    + apply Ascii.eqb_eq in Hc. subst c.
      exists (String sep before), piece.
      split; [done|]. split; [by rewrite Heq|]. split; [done|].
      right. destruct Hbefore as [->|[b' ->]]; [by exists ""|by exists (String sep b')].
    + destruct (has_char sep r) eqn:Hr.
      * exists (String c before), piece.
        split; [done|]. split; [by rewrite Heq|]. split; [done|].
        right. destruct Hbefore as [->|[b' ->]]; [|by exists (String c b')].
        change ("" ++ piece) with piece in Heq. subst r. congruence.
      * exists "", (String c r).
        split; [done|]. split; [done|]. split; [simpl; by rewrite Hc|]. by left.
Qed.

(* ===================================================================== *)
(** * ImageListing: construction and save_name *)
(* ===================================================================== *)

Lemma py_get_dict d key default :
  py_get (PDict d) key default =
  Ok (match d !! key with Some v => v | None => default end).
Proof. unfold py_get. by destruct (d !! key). Qed.

Lemma from_api_resp_json_dict d :
  ImageListing.from_api_resp_json (PDict d) =
  Ok (ImageListing.Build
        (match d !! "date" with Some v => v | None => PStr "" end)
        (match d !! "explanation" with Some v => v | None => PStr "" end)
        (match d !! "media_type" with Some v => v | None => PStr "" end)
        (match d !! "title" with Some v => v | None => PStr "" end)
        (match d !! "hdurl" with Some v => v | None => PStr "" end)).
Proof. unfold ImageListing.from_api_resp_json. by rewrite !py_get_dict. Qed.

(** C9. Building a listing from a dictionary never fails: [__init__] and
    [from_api_resp_json] return a listing whose date, explanation,
    media_type and title are the dictionary's values under these keys and
    whose url is its value under "hdurl", the empty string standing for a
    missing key; so does the constructor without argument. *)
Theorem listing_of_dict_total (d : gmap string pyval) :
  let field key := match d !! key with Some v => v | None => PStr "" end in
  let listing :=
    ImageListing.Build (field "date") (field "explanation") (field "media_type")
      (field "title") (field "hdurl") in
  ImageListing.init (PDict d) = Ok listing /\
  ImageListing.from_api_resp_json (PDict d) = Ok listing /\
  ImageListing.init_default =
    Ok (ImageListing.Build (PStr "") (PStr "") (PStr "") (PStr "") (PStr "")).
Proof.
  split; [apply from_api_resp_json_dict|]. split; [apply from_api_resp_json_dict|].
  reflexivity.
Qed.

(** C3. For a response whose date and hdurl are strings, save_name is the
    date, an underscore and the last path segment of hdurl. *)
Theorem save_name_well_formed (w : world) (d : gmap string pyval) (day u : string) :
  d !! "date" = Some (PStr day) ->
  d !! "hdurl" = Some (PStr u) ->
  exists listing seg,
    ImageListing.init (PDict d) = Ok listing /\
    last_path_segment u seg /\
    ImageListing.save_name w listing = Ok (day ++ "_" ++ seg).
Proof.
  intros Hday Hurl.
  pose proof (from_api_resp_json_dict d) as Hinit.
  rewrite Hday, Hurl in Hinit.
  destruct (last_split "/" u) as (before & seg & Hlast & Heq & Hno & Hbefore).
  eexists _, seg. split; [exact Hinit|]. split.
  - split; [exact Hno|]. by exists before.
  - unfold ImageListing.save_name. simpl. unfold py_last. by rewrite Hlast.
Qed.

Lemma save_name_well_formed_witness :
  exists listing seg,
    ImageListing.init (PDict Sample.fields) = Ok listing /\
    last_path_segment "http://x/y/pic.jpg" seg /\
    ImageListing.save_name Sample.w listing = Ok ("2024-01-01" ++ "_" ++ seg).
Proof.
  apply (save_name_well_formed Sample.w Sample.fields "2024-01-01" "http://x/y/pic.jpg");
    reflexivity.
Defined.

(** The example of the specification: 2024-01-01_pic.jpg. *)
Example save_name_sample :
  (listing ← ImageListing.init (PDict Sample.fields);
   ImageListing.save_name Sample.w listing) = Ok "2024-01-01_pic.jpg".
Proof. vm_compute. reflexivity. Qed.

(** C4, as stated, fails: the listing built from the empty dictionary has
    the empty url, and its save_name is defined and is "_". *)
Lemma save_name_empty_url_counterexample :
  let listing := ImageListing.Build (PStr "") (PStr "") (PStr "") (PStr "") (PStr "") in
  ImageListing.init_default = Ok listing /\
  ImageListing.url listing = PStr "" /\
  ImageListing.save_name Sample.w listing = Ok "_" /\
  ~ (ImageListing.save_name Sample.w listing = Ok "" \/
     exists e, ImageListing.save_name Sample.w listing = Err e).
Proof.
  repeat split. intros [H | [e H]]; vm_compute in H; discriminate.
Qed.

(** C4, amended. The save_name of a listing whose url is the empty string is
    its date followed by an underscore: it is defined and it is not empty. *)
Theorem save_name_empty_url (w : world) (listing : ImageListing.t) :
  ImageListing.url listing = PStr "" ->
  ImageListing.save_name w listing = Ok (py_str w (ImageListing.date listing) ++ "_") /\
  ImageListing.save_name w listing <> Ok "".
Proof.
  intros Hurl. unfold ImageListing.save_name. rewrite Hurl. simpl.
  split; [reflexivity|].
  intros H. injection H as H.
  apply (f_equal (has_char "_")) in H. rewrite has_char_app in H.
  simpl in H. by rewrite orb_true_r in H.
Qed.

Lemma save_name_empty_url_witness :
  ImageListing.save_name Sample.w
    (ImageListing.Build (PStr "2024-01-01") (PStr "") (PStr "") (PStr "") (PStr ""))
  = Ok "2024-01-01_" /\
  ImageListing.save_name Sample.w
    (ImageListing.Build (PStr "2024-01-01") (PStr "") (PStr "") (PStr "") (PStr ""))
  <> Ok "".
Proof.
  apply (save_name_empty_url Sample.w
           (ImageListing.Build (PStr "2024-01-01") (PStr "") (PStr "") (PStr "") (PStr ""))).
  reflexivity.
Defined.

(* ===================================================================== *)
(** * The listing fetch *)
(* ===================================================================== *)

(** Every way through [get_image_listing], one goal each. *)
Ltac fetch_cases :=
  unfold get_image_listing, http_get; step;
  repeat (match goal with
          | |- context [match requests_get ?w ?u with _ => _ end] =>
              destruct (requests_get w u) as [[?|]|?]
          | |- context [match resp_json ?r with _ => _ end] =>
              destruct (resp_json r)
          | |- context [match py_in ?k ?b with _ => _ end] =>
              destruct (py_in k b) as [[|]|?]
          | |- context [match py_getitem ?b ?k with _ => _ end] =>
              destruct (py_getitem b k)
          | |- context [match ImageListing.init ?b with _ => _ end] =>
              destruct (ImageListing.init b)
          end; step);
  try done.

Section Fetch.
Variable w : world.
Variable api_key : string.

(** The fetch sends one GET, to the metadata endpoint, and leaves the disk
    alone. *)
Lemma get_image_listing_state st :
  snd (get_image_listing w api_key st)
  = State (files st) (trace st ++ [EvGet ApodEndpoint (PStr (api_url ++ api_key))]).
Proof.
  by fetch_cases.
Qed.

(** Its outcome depends on the world only, and is never an exit. *)
Lemma get_image_listing_outcome st st' :
  fst (get_image_listing w api_key st) = fst (get_image_listing w api_key st').
Proof.
  by fetch_cases.
Qed.

Lemma get_image_listing_no_exit st c :
  fst (get_image_listing w api_key st) <> SysExit c.
Proof.
  by fetch_cases.
Qed.

(** On a dictionary the fetch raises when there is an "error" key and
    builds the listing otherwise. *)
Lemma get_image_listing_dict st r d :
  requests_get w (PStr (api_url ++ api_key)) = Ok (Some r) ->
  resp_json r = Ok (PDict d) ->
  fst (get_image_listing w api_key st) =
  match d !! "error" with
  | Some err =>
      match py_getitem err "code" with
      | Ok code => Raise (Exception (error_message w code))
      | Err e => Raise e
      end
  | None =>
      match ImageListing.init (PDict d) with
      | Ok listing => Return listing
      | Err e => Raise e
      end
  end.
Proof.
  intros Hget Hjson. unfold get_image_listing, http_get. step.
  rewrite Hget. step. rewrite Hjson. step.
  destruct (d !! "error") as [err|] eqn:Herr; step.
  - destruct (py_getitem err "code"); step; done.
  - destruct (ImageListing.init (PDict d)); step; done.
Qed.

End Fetch.

(** C6. When the body of the metadata response is a dictionary with an
    "error" key, the fetch raises instead of returning a listing; when that
    entry carries a "code", what is raised is the script's exception and its
    message contains the code. *)
Theorem fetch_fails_on_error_key (w : world) (api_key : string) (st : state)
    (r : response) (d : gmap string pyval) :
  requests_get w (PStr (api_url ++ api_key)) = Ok (Some r) ->
  resp_json r = Ok (PDict d) ->
  is_Some (d !! "error") ->
  (exists e, fst (get_image_listing w api_key st) = Raise e) /\
  (forall (fields : gmap string pyval) (code : pyval),
     d !! "error" = Some (PDict fields) ->
     fields !! "code" = Some code ->
     fst (get_image_listing w api_key st) = Raise (Exception (error_message w code)) /\
     contains (exn_str w (Exception (error_message w code))) (py_str w code)).
Proof.
  intros Hget Hjson [err Herr].
  rewrite (get_image_listing_dict w api_key st r d Hget Hjson), Herr.
  split.
  - destruct (py_getitem err "code"); eauto.
  - intros fields code Hfields Hcode.
    assert (err = PDict fields) as -> by congruence.
    simpl. rewrite Hcode. split; [reflexivity|].
    exists "API call was invalid but to the correct endpoint. error returned [", "]".
    reflexivity.
Qed.

Lemma fetch_fails_on_error_key_witness :
  let w := Sample.machine (PDict Sample.refusal) in
  (exists e, fst (get_image_listing w "KEY" (State Sample.disk [])) = Raise e) /\
  (forall (fields : gmap string pyval) (code : pyval),
     Sample.refusal !! "error" = Some (PDict fields) ->
     fields !! "code" = Some code ->
     fst (get_image_listing w "KEY" (State Sample.disk []))
     = Raise (Exception (error_message w code)) /\
     contains (exn_str w (Exception (error_message w code))) (py_str w code)).
Proof.
  apply (fetch_fails_on_error_key (Sample.machine (PDict Sample.refusal)) "KEY"
           (State Sample.disk []) (Response [] (Ok (PDict Sample.refusal))) Sample.refusal).
  - reflexivity.
  - reflexivity.
  - exists (PDict {[ "code" := PStr "API_KEY_INVALID" ]}). reflexivity.
Defined.

(** The refusal of the key, as [main] then prints it. *)
Example fetch_refused :
  fst (get_image_listing (Sample.machine (PDict Sample.refusal)) "KEY" (State Sample.disk []))
  = Raise (Exception
      "API call was invalid but to the correct endpoint. error returned [API_KEY_INVALID]").
Proof. vm_compute. reflexivity. Qed.

(* ===================================================================== *)
(** * The file system: links, directories, new entries *)
(* ===================================================================== *)

Lemma walk_missing fuel fs p :
  Fs.node_at fs p = None -> Fs.walk fuel fs p = Fs.Missing p.
Proof. intros H. destruct fuel; unfold Fs.walk; by rewrite H. Qed.

Lemma walk_dir fuel fs p :
  Fs.node_at fs p = Some Dir -> Fs.walk fuel fs p = Fs.Found p Dir.
Proof. intros H. destruct fuel; unfold Fs.walk; by rewrite H. Qed.

Section FsLemmas.
Implicit Types (fs : filesystem) (p q : path).

Lemma node_at_cons fs c p : Fs.node_at fs (c :: p) = fs !! (c :: p).
Proof. reflexivity. Qed.


Lemma check_parent_missing fs p :
  Fs.node_at fs p = None -> Fs.check_parent fs p = Err FileNotFoundError.
Proof. intros H. unfold Fs.check_parent. by rewrite (walk_missing _ _ _ H). Qed.

Lemma os_mkdir_inv fs p fs' :
  Fs.os_mkdir fs p = Ok fs' -> p <> [] /\ fs !! p = None /\ fs' = <[p := Dir]> fs.
Proof.
  unfold Fs.os_mkdir. destruct p as [|c parent]; [done|].
  destruct (Fs.check_parent fs parent) as [[]|e]; simpl; [|done].
  destruct (fs !! (c :: parent)) eqn:E; [done|]. intros [= <-]. done.
Qed.

Lemma mkdir_failed_inv fs p exist_ok e fs' :
  Fs.mkdir_failed fs p exist_ok e = Ok fs' -> fs' = fs /\ exist_ok = true.
Proof.
  unfold Fs.mkdir_failed. destruct exist_ok; simpl; [|done].
  destruct (negb (Fs.is_dir fs p)); [done|]. by intros [= <-].
Qed.

Lemma mkdir_parents_unfold fs p exist_ok :
  Fs.mkdir_parents fs p exist_ok =
  match Fs.os_mkdir fs p with
  | Ok fs' => Ok fs'
  | Err FileNotFoundError =>
      match p with
      | [] => Err FileNotFoundError
      | _ :: parent =>
          fs1 ← Fs.mkdir_parents fs parent true;
          match Fs.os_mkdir fs1 p with
          | Ok fs' => Ok fs'
          | Err FileNotFoundError => Err FileNotFoundError
          | Err e => Fs.mkdir_failed fs1 p exist_ok e
          end
      end
  | Err e => Fs.mkdir_failed fs p exist_ok e
  end.
Proof. by destruct p. Qed.

(** [mkdir] with [parents=True] adds directories, on the way to [p] and
    where there was nothing; without [exist_ok] it adds [p] itself. *)
Lemma mkdir_parents_inv p : forall fs exist_ok fs',
  Fs.mkdir_parents fs p exist_ok = Ok fs' ->
  (forall q, fs' !! q = fs !! q \/
             (fs !! q = None /\ fs' !! q = Some Dir /\ q `suffix_of` p)) /\
  (exist_ok = false -> p <> [] /\ fs !! p = None /\ fs' !! p = Some Dir).
Proof.
  induction p as [|c parent IH]; intros fs exist_ok fs'; rewrite mkdir_parents_unfold.
  - simpl. intros [-> ->]%mkdir_failed_inv. split; [by left|done].
  - destruct (Fs.os_mkdir fs (c :: parent)) as [fs0|e] eqn:Hmk.
    + intros [= <-]. apply os_mkdir_inv in Hmk as (Hne & Hnone & ->). split.
      * intros q. destruct (decide (q = c :: parent)) as [->|Hq].
        -- right. by rewrite lookup_insert_eq.
        -- left. by rewrite lookup_insert_ne.
      * intros _. by rewrite lookup_insert_eq.
    + assert (Hfailed : forall e' fs1, Fs.mkdir_failed fs1 (c :: parent) exist_ok e' = Ok fs' ->
                (forall q, fs1 !! q = fs !! q \/
                   (fs !! q = None /\ fs1 !! q = Some Dir /\ q `suffix_of` c :: parent)) ->
                (forall q, fs' !! q = fs !! q \/
                   (fs !! q = None /\ fs' !! q = Some Dir /\ q `suffix_of` c :: parent)) /\
                (exist_ok = false -> c :: parent <> [] /\ fs !! (c :: parent) = None
                                     /\ fs' !! (c :: parent) = Some Dir)).
      { intros e' fs1 [-> ->]%mkdir_failed_inv Hq. split; [exact Hq|done]. }
      destruct e; try (intros H; apply (Hfailed _ fs H); by left).
      simpl. destruct (Fs.mkdir_parents fs parent true) as [fs1|e] eqn:Hparent; simpl; [|done].
      apply IH in Hparent as [Hq1 _].
      assert (Hq1' : forall q, fs1 !! q = fs !! q \/
                (fs !! q = None /\ fs1 !! q = Some Dir /\ q `suffix_of` c :: parent)).
      { intros q. destruct (Hq1 q) as [|(? & ? & ?)]; [by left|right].
        repeat split; try done. by apply suffix_cons_r. }
      destruct (Fs.os_mkdir fs1 (c :: parent)) as [fs2|e] eqn:Hmk2.
      * intros [= <-]. apply os_mkdir_inv in Hmk2 as (Hne & Hnone & ->).
        assert (fs !! (c :: parent) = None) as Hnone0.
        { destruct (Hq1' (c :: parent)) as [<-|(? & _)]; done. }
        split.
        -- intros q. destruct (decide (q = c :: parent)) as [->|Hq].
           ++ right. by rewrite lookup_insert_eq.
           ++ rewrite lookup_insert_ne by done. apply Hq1'.
        -- intros _. by rewrite lookup_insert_eq.
      * destruct e; try done; intros H; by apply (Hfailed _ fs1 H).
Qed.


Lemma write_file_new_inv fs p c fs' :
  Fs.node_at fs p = None ->
  Fs.write_file fs p c = Ok fs' -> fs' = <[p := File c]> fs.
Proof.
  intros Hnone. unfold Fs.write_file. rewrite (walk_missing _ _ _ Hnone).
  unfold Fs.create. destruct p as [|name dir]; [done|].
  destruct (Fs.check_parent fs dir) as [[]|e]; simpl; [|done]. by intros [= <-].
Qed.

Lemma symlink_to_inv fs link target fs' :
  Fs.symlink_to fs link target = Ok fs' ->
  fs !! link = None /\ fs' = <[link := Link target]> fs.
Proof.
  unfold Fs.symlink_to. destruct link as [|name parent]; [done|].
  destruct (Fs.check_parent fs parent) as [[]|e]; simpl; [|done].
  destruct (fs !! (name :: parent)) eqn:E; [done|]. by intros [= <-].
Qed.

Lemma symlink_to_no_parent fs name parent target :
  Fs.node_at fs parent = None ->
  Fs.symlink_to fs (name :: parent) target = Err FileNotFoundError.
Proof.
  intros Hnone. unfold Fs.symlink_to. by rewrite (check_parent_missing _ _ Hnone).
Qed.

(** In a well-formed file system nothing lies under a missing entry. *)
Lemma wf_child_absent fs name dir :
  Fs.wf fs -> Fs.node_at fs dir = None -> fs !! (name :: dir) = None.
Proof.
  intros Hwf Hnone. destruct (fs !! (name :: dir)) as [n|] eqn:E; [|done].
  apply Hwf in E. simpl in E. unfold Fs.is_dir, Fs.stat in E.
  by rewrite (walk_missing _ _ _ Hnone) in E.
Qed.

(** ... and nothing lies under a directory that [mkdir] has just made. *)
Lemma mkdir_parents_fresh fs dir fs1 name :
  Fs.wf fs ->
  Fs.mkdir_parents fs dir false = Ok fs1 ->
  Fs.node_at fs1 dir = Some Dir /\ fs1 !! (name :: dir) = None.
Proof.
  intros Hwf Hmk. apply mkdir_parents_inv in Hmk as [Hq Hp].
  destruct (Hp eq_refl) as (Hne & Hnone & Hdir). split.
  - destruct dir; done.
  - destruct (Hq (name :: dir)) as [->|(_ & _ & Hsuffix)].
    + apply wf_child_absent; [done|]. by destruct dir.
    + apply suffix_length in Hsuffix. simpl in Hsuffix. lia.
Qed.

End FsLemmas.

(* ===================================================================== *)
(** * Paths *)
(* ===================================================================== *)

Lemma images_save_dir_eq w : images_save_dir w = "APOD" :: home w.
Proof. reflexivity. Qed.

Lemma links_save_dir_eq w : links_save_dir w = "APOD" :: "Pictures" :: home w.
Proof. reflexivity. Qed.

Lemma joinpath_image p : joinpath p "image" = "image" :: p.
Proof. reflexivity. Qed.

Lemma joinpath_description p : joinpath p "description.txt" = "description.txt" :: p.
Proof. reflexivity. Qed.

(** A name without "/" is one component. *)
Lemma joinpath_plain p s :
  has_char "/" s = false -> s <> "" -> s <> "." -> joinpath p s = s :: p.
Proof.
  intros Hno Hempty Hdot. unfold joinpath, components.
  rewrite (split_no_sep _ _ Hno). simpl.
  apply String.eqb_neq in Hempty, Hdot. rewrite Hempty, Hdot. simpl.
  destruct s as [|a s]; [done|]. simpl in Hno. apply orb_false_elim in Hno as [Ha _].
  simpl. by rewrite Ha.
Qed.


Lemma with_suffix_image_inv p suffix q :
  with_suffix ("image" :: p) suffix = Ok q ->
  q = ("image" ++ suffix) :: p /\ has_char "/" suffix = false.
Proof.
  unfold with_suffix. destruct (has_char "/" suffix); [done|].
  destruct (_ || _); [done|]. by intros [= <-].
Qed.

(* ===================================================================== *)
(** * main: the checks before the network *)
(* ===================================================================== *)

(** C8. Without an API key, or with nothing at ./setWallpaper.sh, [main]
    prints one message and exits with status 1; the print is all the run
    does: no GET is sent and the disk is as it was. *)
Theorem missing_precondition_exits_first (w : world) (api_key : option string)
    (fs : filesystem) :
  api_key = None \/ Fs.node_at fs (wallpaper_script_path w) = None ->
  exists message,
    main w api_key (State fs []) = (SysExit 1, State fs [EvPrint message]) /\
    exit_status (fst (main w api_key (State fs []))) = 1%Z /\
    network_calls (trace (snd (main w api_key (State fs [])))) = [].
Proof.
  intros Hmissing.
  assert (Hrun : exists message,
    main w api_key (State fs []) = (SysExit 1, State fs [EvPrint message])).
  { destruct api_key as [key|].
    - destruct Hmissing as [|Hnone]; [done|].
      exists "Wallpaper setting script not found".
      unfold main. step. unfold Fs.resolve.
      rewrite (walk_missing _ _ _ Hnone). step.
      unfold Fs.is_file, Fs.stat. rewrite (walk_missing _ _ _ Hnone). step. done.
    - exists "No API key provided". unfold main. step. done. }
  destruct Hrun as [message Hrun]. exists message. by rewrite Hrun.
Qed.

Lemma missing_precondition_exits_first_witness :
  exists message,
    main Sample.w (Some "KEY") (State ∅ []) = (SysExit 1, State ∅ [EvPrint message]) /\
    exit_status (fst (main Sample.w (Some "KEY") (State ∅ []))) = 1%Z /\
    network_calls (trace (snd (main Sample.w (Some "KEY") (State ∅ [])))) = [].
Proof.
  apply (missing_precondition_exits_first Sample.w (Some "KEY") ∅).
  right. reflexivity.
Defined.

(* ===================================================================== *)
(** * main: from the listing to the wallpaper *)
(* ===================================================================== *)

(** The invocation of the wallpaper script. *)
Lemma run_invoke w argv st :
  run w argv st =
  (match subprocess_run w argv with Some e => Raise e | None => Return tt end,
   State (files st) (trace st ++ [EvRun argv])).
Proof. unfold run. step. by destruct (subprocess_run w argv). Qed.

#[export] Hint Rewrite run_invoke : step.

Section Main.
Variable w : world.

(** The cache check of [main], its two branches and the invocation. *)
Lemma save_and_set_wallpaper_run script listing st :
  save_and_set_wallpaper w script listing st =
  let st1 := State (files st) (trace st ++ [EvPrint "Downloading image"]) in
  match ImageListing.save_name w listing with
  | Err e => (Raise e, st1)
  | Ok s =>
      let dir := joinpath (images_save_dir w) s in
      let link := joinpath (links_save_dir w) s in
      let argv := [path_str script; path_str link] in
      let invoked : outcome unit :=
        match subprocess_run w argv with Some e => Raise e | None => Return tt end in
      if Fs.exists_ (files st) dir then
        (invoked,
         State (files st)
           (trace st ++ [EvPrint "Downloading image";
                         EvPrint "The image does not need to be downloaded";
                         EvPrint "Setting wallpaper"; EvRun argv]))
      else
        match download_and_save w listing dir link st1 with
        | (Return _, st') =>
            (invoked,
             State (files st') (trace st' ++ [EvPrint "Setting wallpaper"; EvRun argv]))
        | (Raise e, st') => (Raise e, st')
        | (SysExit c, st') => (SysExit c, st')
        end
  end.
Proof.
  unfold save_and_set_wallpaper. step.
  destruct (ImageListing.save_name w listing) as [s|e]; step; [|done].
  destruct (Fs.exists_ (files st) (joinpath (images_save_dir w) s)); step.
  - by rewrite <- !app_assoc.
  - destruct (download_and_save w listing _ _ _) as [[[]|e|c] st']; step;
      by rewrite <- ?app_assoc.
Qed.

Variable api_key : string.
Variable fs : filesystem.

(** A run of [main] stops before the cache check, with status 1, the disk
    untouched, nothing downloaded and the wallpaper script not invoked, or
    it has a script, the listing of an image, and goes on. *)
Lemma main_cases :
  (exists o tr,
     main w (Some api_key) (State fs []) = (o, State fs tr) /\
     exit_status o = 1%Z /\ downloads tr = [] /\ invocations tr = [])
  \/
  (exists script listing,
     Fs.resolve fs (wallpaper_script_path w) = Ok script /\
     Fs.is_file fs script = true /\
     fst (get_image_listing w api_key (State fs [])) = Return listing /\
     ImageListing.is_image listing = true /\
     main w (Some api_key) (State fs []) =
     save_and_set_wallpaper w script listing
       (State fs [EvPrint "Getting daily-image listing";
                  EvGet ApodEndpoint (PStr (api_url ++ api_key));
                  EvPrint (tab ++ "Title: " ++ py_str w (ImageListing.title listing))])).
Proof.
  unfold main. step.
  destruct (Fs.resolve fs (wallpaper_script_path w)) as [script|e] eqn:Hresolve; step.
  2: { left. eexists _, _. split; [reflexivity|]. done. }
  destruct (Fs.is_file fs script) eqn:Hfile; step.
  2: { left. eexists _, _. split; [reflexivity|]. done. }
  unfold try_except.
  pose proof (get_image_listing_state w api_key
                (State fs [EvPrint "Getting daily-image listing"])) as Hst.
  pose proof (get_image_listing_outcome w api_key
                (State fs [EvPrint "Getting daily-image listing"]) (State fs [])) as Hout.
  pose proof (get_image_listing_no_exit w api_key
                (State fs [EvPrint "Getting daily-image listing"])) as Hexit.
  destruct (get_image_listing w api_key _) as [[listing|e|c] st1];
    simpl in Hst, Hout, Hexit; subst st1.
  - step. destruct (ImageListing.is_image listing) eqn:Himage; step.
    + right. exists script, listing. done.
    + left. eexists _, _. split; [reflexivity|]. done.
  - step. left. eexists _, _. split; [reflexivity|]. done.
  - by destruct (Hexit c).
Qed.

End Main.

(** C5. When the metadata response is a dictionary whose media_type is not
    "image", the run sends no GET to the image endpoint and ends with status
    1. *)
Theorem not_an_image_no_download (w : world) (api_key : string) (fs : filesystem)
    (r : response) (d : gmap string pyval) :
  requests_get w (PStr (api_url ++ api_key)) = Ok (Some r) ->
  resp_json r = Ok (PDict d) ->
  d !! "media_type" <> Some (PStr "image") ->
  downloads (trace (snd (main w (Some api_key) (State fs [])))) = [] /\
  exit_status (fst (main w (Some api_key) (State fs []))) = 1%Z.
Proof.
  intros Hget Hjson Hmedia.
  destruct (main_cases w api_key fs)
    as [(o & tr & -> & Hstatus & Hdown & _)
       |(script & listing & _ & _ & Hlisting & Himage & _)]; [done|].
  exfalso. apply Hmedia.
  rewrite (get_image_listing_dict w api_key _ r d Hget Hjson) in Hlisting.
  destruct (d !! "error") as [err|].
  { by destruct (py_getitem err "code"). }
  unfold ImageListing.init in Hlisting.
  rewrite from_api_resp_json_dict in Hlisting. injection Hlisting as <-.
  unfold ImageListing.is_image in Himage. simpl in Himage.
  destruct (d !! "media_type") as [[t| | |]|]; simpl in Himage; try done.
  apply String.eqb_eq in Himage. by subst t.
Qed.

Lemma not_an_image_no_download_witness :
  let w := Sample.machine (PDict (<["media_type" := PStr "video"]> Sample.fields)) in
  downloads (trace (snd (main w (Some "KEY") (State Sample.disk [])))) = [] /\
  exit_status (fst (main w (Some "KEY") (State Sample.disk []))) = 1%Z.
Proof.
  apply (not_an_image_no_download
           (Sample.machine (PDict (<["media_type" := PStr "video"]> Sample.fields)))
           "KEY" Sample.disk
           (Response [] (Ok (PDict (<["media_type" := PStr "video"]> Sample.fields))))
           (<["media_type" := PStr "video"]> Sample.fields)).
  - reflexivity.
  - reflexivity.
  - vm_compute. discriminate.
Defined.

(** What a day with a video prints. *)
Example video_day :
  main (Sample.machine (PDict (<["media_type" := PStr "video"]> Sample.fields)))
    (Some "KEY") (State ∅ [])
  = (SysExit 1, State ∅ [EvPrint "Wallpaper setting script not found"]) /\
  let run := main (Sample.machine (PDict (<["media_type" := PStr "video"]> Sample.fields)))
               (Some "KEY") (State Sample.disk []) in
  fst run = SysExit 1 /\
  trace (snd run) =
    [EvPrint "Getting daily-image listing";
     EvGet ApodEndpoint (PStr "https://api.nasa.gov/planetary/apod?api_key=KEY");
     EvPrint (tab ++ "Title: T"); EvPrint "Not an image today"].
Proof. vm_compute. done. Qed.

(** C7. When the save directory of the listing the fetch returns is already
    there, the run sends no GET to the image endpoint and leaves the disk as
    it was: no image, no description, no link is written. *)
Theorem cached_image_not_downloaded (w : world) (api_key : string) (fs : filesystem)
    (listing : ImageListing.t) (s : string) :
  fst (get_image_listing w api_key (State fs [])) = Return listing ->
  ImageListing.save_name w listing = Ok s ->
  Fs.exists_ fs (joinpath (images_save_dir w) s) = true ->
  downloads (trace (snd (main w (Some api_key) (State fs [])))) = [] /\
  files (snd (main w (Some api_key) (State fs []))) = fs.
Proof.
  intros Hlisting Hname Hthere.
  destruct (main_cases w api_key fs)
    as [(o & tr & -> & _ & Hdown & _)
       |(script & listing' & _ & _ & Hlisting' & _ & ->)]; [done|].
  assert (listing' = listing) as -> by congruence.
  rewrite save_and_set_wallpaper_run, Hname. simpl. rewrite Hthere. done.
Qed.

Lemma cached_image_not_downloaded_witness :
  downloads (trace (snd (main Sample.w (Some "KEY") (State Sample.disk_with_save_dir [])))) = [] /\
  files (snd (main Sample.w (Some "KEY") (State Sample.disk_with_save_dir [])))
  = Sample.disk_with_save_dir.
Proof.
  apply (cached_image_not_downloaded Sample.w "KEY" Sample.disk_with_save_dir
           (ImageListing.Build (PStr "2024-01-01") (PStr "E") (PStr "image") (PStr "T")
              (PStr "http://x/y/pic.jpg"))
           "2024-01-01_pic.jpg").
  - vm_compute. reflexivity.
  - vm_compute. reflexivity.
  - vm_compute. reflexivity.
Defined.

(** The trace of that run: one GET, to the metadata endpoint. *)
Example cached_run :
  let run := main Sample.w (Some "KEY") (State Sample.disk_with_save_dir []) in
  fst run = Return tt /\
  trace (snd run) =
    [EvPrint "Getting daily-image listing";
     EvGet ApodEndpoint (PStr "https://api.nasa.gov/planetary/apod?api_key=KEY");
     EvPrint (tab ++ "Title: T"); EvPrint "Downloading image";
     EvPrint "The image does not need to be downloaded";
     EvPrint "Setting wallpaper";
     EvRun ["/home/user/apod/setWallpaper.sh";
            "/home/user/Pictures/APOD/2024-01-01_pic.jpg"]].
Proof. vm_compute. done. Qed.

(* ===================================================================== *)
(** * main: download and persistence *)
(* ===================================================================== *)

(** The extension the script gives the image file. *)
Lemma extension_of_url u :
  (pieces ← py_split (PStr u) "."; last_piece ← py_last pieces; Ok ("." ++ last_piece))
  = match list.last (split "." u) with
    | Some e => Ok ("." ++ e)
    | None => Err IndexError
    end.
Proof. simpl. unfold py_last. by destruct (list.last (split "." u)). Qed.

(** The block of [main] that downloads and writes, step by step: each
    failure leaves on the disk what the steps before it have written. *)
Lemma download_and_save_run w listing dir link st :
  download_and_save w listing dir link st =
  match Fs.mkdir_parents (files st) dir false with
  | Err e => (Raise e, st)
  | Ok fs1 =>
    let tr := (trace st ++ [EvGet ImageEndpoint (ImageListing.url listing)])%list in
    match requests_get w (ImageListing.url listing) with
    | Err e => (Raise e, State fs1 tr)
    | Ok None => (Raise (Exception "Failed to hit image endpoint"), State fs1 tr)
    | Ok (Some r) =>
      match (pieces ← py_split (ImageListing.url listing) ".";
             last_piece ← py_last pieces; Ok ("." ++ last_piece)) with
      | Err e => (Raise e, State fs1 tr)
      | Ok extension =>
        match with_suffix (joinpath dir "image") extension with
        | Err e => (Raise e, State fs1 tr)
        | Ok image_file =>
          match Fs.write_file fs1 image_file (Bytes (resp_content r)) with
          | Err e => (Raise e, State fs1 tr)
          | Ok fs2 =>
            match Fs.write_file fs2 (joinpath dir "description.txt")
                    (Text (description w listing)) with
            | Err e => (Raise e, State fs2 tr)
            | Ok fs3 =>
              match Fs.symlink_to fs3 link (joinpath dir "image") with
              | Err e => (Raise e, State fs3 tr)
              | Ok fs4 => (Return tt, State fs4 tr)
              end
            end
          end
        end
      end
    end
  end.
Proof.
  unfold download_and_save, get_image, http_get. step.
  destruct (Fs.mkdir_parents (files st) dir false) as [fs1|e]; step; [|done].
  destruct (requests_get w (ImageListing.url listing)) as [[r|]|e]; step; [|done|done].
  destruct (mbind _ (py_split (ImageListing.url listing) ".")) as [extension|e]; step; [|done].
  destruct (with_suffix (joinpath dir "image") extension) as [image_file|e]; step; [|done].
  destruct (Fs.write_file fs1 image_file _) as [fs2|e]; step; [|done].
  destruct (Fs.write_file fs2 _ _) as [fs3|e]; step; [|done].
  destruct (Fs.symlink_to fs3 link _) as [fs4|e]; step; done.
Qed.

(** The save_name of a listing whose date has no "/" is one path component. *)
Lemma save_name_plain w listing s :
  ImageListing.save_name w listing = Ok s ->
  has_char "/" (py_str w (ImageListing.date listing)) = false ->
  has_char "/" s = false /\ s <> "" /\ s <> ".".
Proof.
  unfold ImageListing.save_name. intros Hname Hday.
  destruct (ImageListing.url listing) as [u| | |]; try done. simpl in Hname.
  destruct (last_split "/" u) as (before & seg & Hlast & _ & Hno & _).
  unfold py_last in Hname. rewrite Hlast in Hname. simpl in Hname.
  injection Hname as <-.
  assert (Hunder : has_char "_" (py_str w (ImageListing.date listing) ++ "_" ++ seg) = true).
  { rewrite has_char_app. simpl. by rewrite orb_true_r. }
  split; [|split].
  - rewrite has_char_app, Hday. simpl. exact Hno.
  - intros E. by rewrite E in Hunder.
  - intros E. by rewrite E in Hunder.
Qed.

(** With a script, the listing of an image fetched, [main] reaches the
    cache check. *)
Lemma main_reaches w api_key fs script listing :
  Fs.resolve fs (wallpaper_script_path w) = Ok script ->
  Fs.is_file fs script = true ->
  fst (get_image_listing w api_key (State fs [])) = Return listing ->
  ImageListing.is_image listing = true ->
  main w (Some api_key) (State fs []) =
  save_and_set_wallpaper w script listing
    (State fs [EvPrint "Getting daily-image listing";
               EvGet ApodEndpoint (PStr (api_url ++ api_key));
               EvPrint (tab ++ "Title: " ++ py_str w (ImageListing.title listing))]).
Proof.
  intros Hresolve Hfile Hlisting Himage.
  unfold main. step. rewrite Hresolve. step. rewrite Hfile. step.
  unfold try_except.
  pose proof (get_image_listing_state w api_key
                (State fs [EvPrint "Getting daily-image listing"])) as Hst.
  pose proof (get_image_listing_outcome w api_key
                (State fs [EvPrint "Getting daily-image listing"]) (State fs [])) as Hout.
  rewrite Hlisting in Hout.
  destruct (get_image_listing w api_key (State fs [EvPrint "Getting daily-image listing"]))
    as [o st1].
  simpl in Hst, Hout. subst o st1. step. by rewrite Himage.
Qed.

(** X15. No run makes the links directory: on a well-formed disk with
    nothing at ~/Pictures/APOD, and a listing whose date has no "/", there
    is nothing at ~/Pictures/APOD when [main] ends, however it ends. *)
Lemma links_dir_never_created (w : world) (api_key : string) (fs : filesystem) :
  Fs.wf fs ->
  Fs.node_at fs ("APOD" :: "Pictures" :: home w) = None ->
  (forall listing,
     fst (get_image_listing w api_key (State fs [])) = Return listing ->
     has_char "/" (py_str w (ImageListing.date listing)) = false) ->
  files (snd (main w (Some api_key) (State fs []))) !! ("APOD" :: "Pictures" :: home w) = None.
Proof.
  intros Hwf Hnone Hday.
  destruct (main_cases w api_key fs)
    as [(o' & tr & -> & _)|(script & listing & _ & _ & Hlisting & _ & ->)]; [done|].
  specialize (Hday listing Hlisting).
  rewrite save_and_set_wallpaper_run. simpl.
  destruct (ImageListing.save_name w listing) as [s|err] eqn:Hname; [|done].
  destruct (save_name_plain w listing s Hname Hday) as (Hplain & Hne & Hdot).
  rewrite images_save_dir_eq, links_save_dir_eq, !(joinpath_plain _ s Hplain Hne Hdot).
  set (dir := s :: "APOD" :: home w).
  destruct (Fs.exists_ fs dir); [done|].
  rewrite download_and_save_run. simpl.
  destruct (Fs.mkdir_parents fs dir false) as [fs1|err] eqn:Hmkdir; [|done].
  assert (Hnone1 : fs1 !! ("APOD" :: "Pictures" :: home w) = None).
  { destruct (mkdir_parents_inv _ _ _ _ Hmkdir) as [Hq _].
    destruct (Hq ("APOD" :: "Pictures" :: home w)) as [->|(_ & _ & Hsuffix)]; [done|].
    apply suffix_length_eq in Hsuffix; [done|simpl; lia]. }
  destruct (requests_get w _) as [[r|]|err]; [|done|done].
  destruct (mbind _ _) as [extension|err]; [|done].
  rewrite joinpath_image, joinpath_description.
  destruct (with_suffix _ _) as [image_file|err] eqn:Hsuffix; [|done].
  apply with_suffix_image_inv in Hsuffix as [-> _].
  destruct (mkdir_parents_fresh fs dir fs1 ("image" ++ extension) Hwf Hmkdir) as [Hdir Himg].
  destruct (Fs.write_file fs1 _ _) as [fs2|err] eqn:Hwrite1; [|done].
  apply write_file_new_inv in Hwrite1; [|exact Himg]. subst fs2.
  assert (Hother : forall name, "APOD" :: "Pictures" :: home w <> name :: dir).
  { intros name E. apply (f_equal length) in E. simpl in E. lia. }
  destruct (mkdir_parents_fresh fs dir fs1 "description.txt" Hwf Hmkdir) as [_ Hdesc].
  destruct (Fs.write_file _ ("description.txt" :: dir) _) as [fs3|err] eqn:Hwrite2.
  2: { simpl. by rewrite lookup_insert_ne. }
  apply write_file_new_inv in Hwrite2; [|by rewrite node_at_cons, lookup_insert_ne].
  subst fs3.
  rewrite symlink_to_no_parent; simpl; by rewrite !lookup_insert_ne.
Qed.



(** What [mkdir] makes on the disk without ~/APOD. *)
Example sample_mkdir :
  Fs.mkdir_parents Sample.bare_disk Sample.save_dir false
  = Ok Sample.bare_disk_with_save_dir /\
  Sample.bare_disk !! ["APOD"; "user"; "home"] = None /\
  Sample.bare_disk_with_save_dir !! ["APOD"; "user"; "home"] = Some Dir /\
  Sample.bare_disk_with_save_dir !! Sample.save_dir = Some Dir.
Proof.
  split; [|by vm_compute].
  assert (Hok : match Fs.mkdir_parents Sample.bare_disk Sample.save_dir false with
                | Ok _ => true
                | Err _ => false
                end = true) by (vm_compute; reflexivity).
  unfold Sample.bare_disk_with_save_dir.
  by destruct (Fs.mkdir_parents _ _ _).
Qed.


(** What follows the last dot of a URL, when it has no "/", follows the last
    dot of the last path segment. *)
Lemma extension_in_segment u : forall e seg,
  list.last (split "." u) = Some e ->
  has_char "/" e = false ->
  list.last (split "/" u) = Some seg ->
  list.last (split "." seg) = Some e.
Proof.
  induction u as [|c r IH]; intros e seg.
  - simpl. by intros [= <-] _ [= <-].
  - rewrite !last_split_cons.
    destruct (Ascii.eqb c "/" || has_char "/" r) eqn:Hslash.
    + destruct (Ascii.eqb c "." || has_char "." r) eqn:Hdot.
      * apply IH.
      * intros [= <-] He. simpl in He. by rewrite Hslash in He.
    + intros He _ [= <-]. by rewrite last_split_cons.
Qed.

(** C2, amended. A run that downloads an image and goes on to invoke the
    wallpaper script, on a well-formed disk, has produced: the image at
    <save dir>/image.<ext>, where the save directory is ~/APOD joined with
    the save_name and <ext> is what follows the last "." of the last path
    segment of the URL; the description at <save dir>/description.txt; a
    symbolic link at ~/Pictures/APOD joined with the save_name; and besides
    these three, directories only.  When the date has no "/" the save
    directory is ~/APOD/<save_name> and the link ~/Pictures/APOD/<save_name>. *)
Theorem files_produced (w : world) (api_key : string) (fs : filesystem)
    (o : outcome unit) (st' : state) :
  Fs.wf fs ->
  main w (Some api_key) (State fs []) = (o, st') ->
  downloads (trace st') <> [] ->
  invocations (trace st') <> [] ->
  exists listing s u r seg e,
    fst (get_image_listing w api_key (State fs [])) = Return listing /\
    ImageListing.save_name w listing = Ok s /\
    ImageListing.url listing = PStr u /\
    requests_get w (PStr u) = Ok (Some r) /\
    last_path_segment u seg /\
    list.last (split "." seg) = Some e /\
    let dir := joinpath (images_save_dir w) s in
    let link := joinpath (links_save_dir w) s in
    files st' !! (("image" ++ "." ++ e) :: dir) = Some (File (Bytes (resp_content r))) /\
    files st' !! ("description.txt" :: dir) = Some (File (Text (description w listing))) /\
    (exists target, files st' !! link = Some (Link target)) /\
    (forall p, p <> ("image" ++ "." ++ e) :: dir -> p <> "description.txt" :: dir ->
               p <> link ->
               files st' !! p = fs !! p \/ (fs !! p = None /\ files st' !! p = Some Dir)) /\
    (has_char "/" (py_str w (ImageListing.date listing)) = false ->
     dir = s :: "APOD" :: home w /\ link = s :: "APOD" :: "Pictures" :: home w).
Proof.
  intros Hwf Hmain Hdown Hinvoked.
  destruct (main_cases w api_key fs)
    as [(o' & tr & Hearly & _ & Hnone & _)
       |(script & listing & _ & _ & Hlisting & _ & Hreached)].
  { rewrite Hearly in Hmain. injection Hmain as <- <-. done. }
  rewrite Hreached, save_and_set_wallpaper_run in Hmain. simpl in Hmain.
  destruct (ImageListing.save_name w listing) as [s|err] eqn:Hname.
  2: { injection Hmain as <- <-. done. }
  destruct (Fs.exists_ fs (joinpath (images_save_dir w) s)).
  { injection Hmain as <- <-. done. }
  rewrite download_and_save_run in Hmain. simpl in Hmain.
  assert (exists u, ImageListing.url listing = PStr u) as [u Hurl].
  { unfold ImageListing.save_name in Hname.
    destruct (ImageListing.url listing) as [u| | |]; try done. by exists u. }
  rewrite Hurl, extension_of_url, joinpath_image, joinpath_description in Hmain.
  set (dir := joinpath (images_save_dir w) s) in *.
  set (link := joinpath (links_save_dir w) s) in *.
  destruct (Fs.mkdir_parents fs dir false) as [fs1|err] eqn:Hmkdir.
  2: { injection Hmain as <- <-. done. }
  destruct (requests_get w (PStr u)) as [[r|]|err] eqn:Hget.
  2, 3: injection Hmain as <- <-; done.
  destruct (list.last (split "." u)) as [e|] eqn:Hlast.
  2: { injection Hmain as <- <-. done. }
  destruct (with_suffix ("image" :: dir) ("." ++ e)) as [image_file|err] eqn:Hsuffix.
  2: { injection Hmain as <- <-. done. }
  apply with_suffix_image_inv in Hsuffix as [-> Hslash].
  change (has_char "/" ("." ++ e)) with (has_char "/" e) in Hslash.
  destruct (mkdir_parents_fresh fs dir fs1 ("image" ++ "." ++ e) Hwf Hmkdir) as [Hdir Himg].
  destruct (mkdir_parents_fresh fs dir fs1 "description.txt" Hwf Hmkdir) as [_ Hdesc].
  destruct (Fs.write_file fs1 _ _) as [fs2|err] eqn:Hwrite1.
  2: { injection Hmain as <- <-. done. }
  apply write_file_new_inv in Hwrite1; [|exact Himg]. subst fs2.
  destruct (Fs.write_file _ ("description.txt" :: dir) _) as [fs3|err] eqn:Hwrite2.
  2: { injection Hmain as <- <-. done. }
  apply write_file_new_inv in Hwrite2; [|by rewrite node_at_cons, lookup_insert_ne]. subst fs3.
  destruct (Fs.symlink_to _ link _) as [fs4|err] eqn:Hlink.
  2: { injection Hmain as <- <-. done. }
  apply symlink_to_inv in Hlink as [Hfree ->].
  injection Hmain as <- <-. simpl.
  destruct (last_split "/" u) as (before & seg & Hseg & Hu & Hno & Hbefore).
  exists listing, s, u, r, seg, e.
  split; [done|]. split; [done|]. split; [done|]. split; [done|].
  split; [split; [done|by exists before]|].
  split; [by apply (extension_in_segment u)|].
  assert (Hne1 : link <> ("image" ++ "." ++ e) :: dir).
  { intros E. rewrite E, lookup_insert_ne, lookup_insert_eq in Hfree; done. }
  assert (Hne2 : link <> "description.txt" :: dir).
  { intros E. by rewrite E, lookup_insert_eq in Hfree. }
  split; [|split; [|split; [|split]]].
  - rewrite lookup_insert_ne by done. rewrite lookup_insert_ne by done.
    by rewrite lookup_insert_eq.
  - rewrite lookup_insert_ne by done. by rewrite lookup_insert_eq.
  - eexists. by rewrite lookup_insert_eq.
  - intros p Hp1 Hp2 Hp3. rewrite !lookup_insert_ne by done.
    destruct (mkdir_parents_inv _ _ _ _ Hmkdir) as [Hq _].
    destruct (Hq p) as [->|(? & ? & _)]; [by left|by right].
  - intros Hday. destruct (save_name_plain w listing s Hname Hday) as (Hplain & Hne & Hdot).
    unfold dir, link.
    by rewrite images_save_dir_eq, links_save_dir_eq, !(joinpath_plain _ s Hplain Hne Hdot).
Qed.

Lemma files_produced_witness :
  let run := main Sample.w (Some "KEY") (State Sample.disk []) in
  exists listing s u r seg e,
    fst (get_image_listing Sample.w "KEY" (State Sample.disk [])) = Return listing /\
    ImageListing.save_name Sample.w listing = Ok s /\
    ImageListing.url listing = PStr u /\
    requests_get Sample.w (PStr u) = Ok (Some r) /\
    last_path_segment u seg /\
    list.last (split "." seg) = Some e /\
    let dir := joinpath (images_save_dir Sample.w) s in
    let link := joinpath (links_save_dir Sample.w) s in
    files (snd run) !! (("image" ++ "." ++ e) :: dir) = Some (File (Bytes (resp_content r))) /\
    files (snd run) !! ("description.txt" :: dir)
      = Some (File (Text (description Sample.w listing))) /\
    (exists target, files (snd run) !! link = Some (Link target)) /\
    (forall p, p <> ("image" ++ "." ++ e) :: dir -> p <> "description.txt" :: dir ->
               p <> link ->
               files (snd run) !! p = Sample.disk !! p \/
               (Sample.disk !! p = None /\ files (snd run) !! p = Some Dir)) /\
    (has_char "/" (py_str Sample.w (ImageListing.date listing)) = false ->
     dir = s :: "APOD" :: home Sample.w /\
     link = s :: "APOD" :: "Pictures" :: home Sample.w).
Proof.
  apply (files_produced Sample.w "KEY" Sample.disk
           (fst (main Sample.w (Some "KEY") (State Sample.disk [])))
           (snd (main Sample.w (Some "KEY") (State Sample.disk [])))).
  - apply (bool_decide_unpack (Fs.wf Sample.disk)). vm_compute. exact I.
  - by destruct (main Sample.w (Some "KEY") (State Sample.disk [])).
  - vm_compute. discriminate.
  - vm_compute. discriminate.
Defined.

(** C2, as stated, fails.  The sample run on a disk with the links
    directory downloads the image and puts the link at
    ~/Pictures/APOD/2024-01-01_pic.jpg: there is nothing at
    ~/Pictures/APOD/2024-01-01_pic.jpg/image.  The sample run on a disk
    without the links directory downloads the image and produces no link. *)
Lemma link_location_counterexample :
  let run := main Sample.w (Some "KEY") (State Sample.disk []) in
  let bare_run := main Sample.w (Some "KEY") (State Sample.bare_disk []) in
  (downloads (trace (snd run)) = [PStr "http://x/y/pic.jpg"] /\
   files (snd run) !! ("image" :: Sample.link) = None /\
   exists target, files (snd run) !! Sample.link = Some (Link target)) /\
  (downloads (trace (snd bare_run)) = [PStr "http://x/y/pic.jpg"] /\
   files (snd bare_run) !! ("image" :: Sample.link) = None /\
   files (snd bare_run) !! Sample.link = None).
Proof.
  split; (split; [by vm_compute|split]); try by vm_compute.
  eexists. vm_compute. reflexivity.
Qed.

(** C1: the run of the example of the specification, on a disk that has
    the links directory and not the save directory.  It writes the image to
    image.jpg and the description "T", blank line, "E", newline; the link it
    makes points to <save dir>/image, which is not the image file and is
    not on the disk: the link dangles. *)
Theorem symlink_target_is_not_the_image_file :
  let run := main Sample.w (Some "KEY") (State Sample.disk []) in
  let image_file := "image.jpg" :: Sample.save_dir in
  let target := "image" :: Sample.save_dir in
  Fs.exists_ Sample.disk Sample.save_dir = false /\
  fst run = Return tt /\
  files (snd run) !! image_file = Some (File (Bytes Sample.picture)) /\
  files (snd run) !! ("description.txt" :: Sample.save_dir)
    = Some (File (Text ("T" ++ nl ++ nl ++ "E" ++ nl))) /\
  files (snd run) !! Sample.link = Some (Link target) /\
  target <> image_file /\
  files (snd run) !! target = None /\
  Fs.exists_ (files (snd run)) Sample.link = false /\
  invocations (trace (snd run))
    = [["/home/user/apod/setWallpaper.sh"; "/home/user/Pictures/APOD/2024-01-01_pic.jpg"]].
Proof. repeat split; try by vm_compute. Qed.

(* ===================================================================== *)
(** * The listing fetch: what makes it fail *)
(* ===================================================================== *)

(** X1. When [requests.get] raises, or the body of the response is not
    JSON, the fetch raises that very exception: nothing of the script
    replaces it. *)
Theorem fetch_propagates_errors (w : world) (api_key : string) (st : state) (e : exn) :
  requests_get w (PStr (api_url ++ api_key)) = Err e \/
  (exists r, requests_get w (PStr (api_url ++ api_key)) = Ok (Some r) /\
             resp_json r = Err e) ->
  fst (get_image_listing w api_key st) = Raise e /\
  snd (get_image_listing w api_key st)
  = State (files st) (trace st ++ [EvGet ApodEndpoint (PStr (api_url ++ api_key))]).
Proof.
  intros H. split; [|apply get_image_listing_state].
  unfold get_image_listing, http_get. step.
  destruct H as [->|(r & -> & Hjson)]; step; [done|]. by rewrite Hjson.
Qed.

Lemma fetch_propagates_errors_witness :
  fst (get_image_listing Cases.offline "KEY" (State Sample.disk []))
  = Raise (RequestException "no route to host") /\
  snd (get_image_listing Cases.offline "KEY" (State Sample.disk []))
  = State (files (State Sample.disk []))
      (trace (State Sample.disk [])
       ++ [EvGet ApodEndpoint (PStr (api_url ++ "KEY"))]).
Proof.
  apply (fetch_propagates_errors Cases.offline "KEY" (State Sample.disk [])
           (RequestException "no route to host")).
  left. reflexivity.
Defined.

(** X2. A body that is JSON but not an object (an array, a string, a
    number, null) never gives a listing: the fetch raises TypeError or
    AttributeError. *)
Theorem fetch_rejects_non_object (w : world) (api_key : string) (st : state)
    (r : response) (body : pyval) :
  requests_get w (PStr (api_url ++ api_key)) = Ok (Some r) ->
  resp_json r = Ok body ->
  (forall d, body <> PDict d) ->
  fst (get_image_listing w api_key st) = Raise TypeError \/
  fst (get_image_listing w api_key st) = Raise AttributeError.
Proof.
  intros Hget Hjson Hbody. unfold get_image_listing, http_get. step.
  rewrite Hget. step. rewrite Hjson. step.
  destruct body as [s|d|l|a]; simpl.
  - destruct (str_contains "error" s); step; [by left|by right].
  - by destruct (Hbody d).
  - destruct (existsb _ l); step; [by left|by right].
  - by left.
Qed.

Lemma fetch_rejects_non_object_witness :
  fst (get_image_listing (Sample.machine (PList [PStr "error"])) "KEY" (State Sample.disk []))
  = Raise TypeError \/
  fst (get_image_listing (Sample.machine (PList [PStr "error"])) "KEY" (State Sample.disk []))
  = Raise AttributeError.
Proof.
  apply (fetch_rejects_non_object (Sample.machine (PList [PStr "error"])) "KEY"
           (State Sample.disk []) (Response [] (Ok (PList [PStr "error"])))
           (PList [PStr "error"])).
  - reflexivity.
  - reflexivity.
  - discriminate.
Defined.

(** X3. An "error" entry without a usable code: when it is an object
    without "code" the fetch raises KeyError for "code", when it is not an
    object it raises TypeError; the script's own message is raised only
    when there is a code. *)
Theorem fetch_error_without_code (w : world) (api_key : string) (st : state)
    (r : response) (d : gmap string pyval) (err : pyval) :
  requests_get w (PStr (api_url ++ api_key)) = Ok (Some r) ->
  resp_json r = Ok (PDict d) ->
  d !! "error" = Some err ->
  fst (get_image_listing w api_key st) =
  match err with
  | PDict fields =>
      match fields !! "code" with
      | Some code => Raise (Exception (error_message w code))
      | None => Raise (KeyError "code")
      end
  | _ => Raise TypeError
  end.
Proof.
  intros Hget Hjson Herr.
  rewrite (get_image_listing_dict w api_key st r d Hget Hjson), Herr.
  destruct err as [s|fields|l|a]; simpl; try done.
  by destruct (fields !! "code").
Qed.

Lemma fetch_error_without_code_witness :
  fst (get_image_listing (Sample.machine (PDict Cases.plain_refusal)) "KEY"
         (State Sample.disk []))
  = Raise TypeError.
Proof.
  apply (fetch_error_without_code (Sample.machine (PDict Cases.plain_refusal)) "KEY"
           (State Sample.disk []) (Response [] (Ok (PDict Cases.plain_refusal)))
           Cases.plain_refusal (PStr "over the rate limit")).
  - reflexivity.
  - reflexivity.
  - reflexivity.
Defined.

(** X4. Only the string "image", in this very spelling, makes a listing an
    image: the listing built from a dictionary is one exactly when the
    dictionary has it under "media_type". *)
Theorem is_image_iff (d : gmap string pyval) (listing : ImageListing.t) :
  ImageListing.init (PDict d) = Ok listing ->
  ImageListing.is_image listing = true <-> d !! "media_type" = Some (PStr "image").
Proof.
  unfold ImageListing.init. rewrite from_api_resp_json_dict. intros [= <-].
  unfold ImageListing.is_image. simpl. split.
  - destruct (d !! "media_type") as [[t| | |]|]; simpl; try done.
    by intros ->%String.eqb_eq.
  - by intros ->.
Qed.

Lemma is_image_iff_witness :
  ImageListing.is_image
    (ImageListing.Build (PStr "2024-01-01") (PStr "E") (PStr "Image") (PStr "T")
       (PStr "http://x/y/pic.jpg")) = true
  <-> <["media_type" := PStr "Image"]> Sample.fields !! "media_type" = Some (PStr "image").
Proof.
  apply (is_image_iff (<["media_type" := PStr "Image"]> Sample.fields)).
  vm_compute. reflexivity.
Defined.

(* ===================================================================== *)
(** * main: every way it ends *)
(* ===================================================================== *)

(** The five ways through lines 76-100 of [main]. *)
Lemma main_outcomes w api_key fs :
  let started := EvPrint "Getting daily-image listing" in
  let asked := EvGet ApodEndpoint (PStr (api_url ++ api_key)) in
  (exists e, Fs.resolve fs (wallpaper_script_path w) = Err e /\
     main w (Some api_key) (State fs []) = (Raise e, State fs []))
  \/
  (exists script, Fs.resolve fs (wallpaper_script_path w) = Ok script /\
     Fs.is_file fs script = false /\
     main w (Some api_key) (State fs [])
     = (SysExit 1, State fs [EvPrint "Wallpaper setting script not found"]))
  \/
  (exists script e, Fs.resolve fs (wallpaper_script_path w) = Ok script /\
     Fs.is_file fs script = true /\
     fst (get_image_listing w api_key (State fs [])) = Raise e /\
     main w (Some api_key) (State fs [])
     = (SysExit 1,
        State fs [started; asked;
                  EvPrint ("Failed to get image listing: " ++ exn_str w e)]))
  \/
  (exists script listing, Fs.resolve fs (wallpaper_script_path w) = Ok script /\
     Fs.is_file fs script = true /\
     fst (get_image_listing w api_key (State fs [])) = Return listing /\
     ImageListing.is_image listing = false /\
     main w (Some api_key) (State fs [])
     = (SysExit 1,
        State fs [started; asked;
                  EvPrint (tab ++ "Title: " ++ py_str w (ImageListing.title listing));
                  EvPrint "Not an image today"]))
  \/
  (exists script listing, Fs.resolve fs (wallpaper_script_path w) = Ok script /\
     Fs.is_file fs script = true /\
     fst (get_image_listing w api_key (State fs [])) = Return listing /\
     ImageListing.is_image listing = true /\
     main w (Some api_key) (State fs [])
     = save_and_set_wallpaper w script listing
         (State fs [started; asked;
                    EvPrint (tab ++ "Title: " ++ py_str w (ImageListing.title listing))])).
Proof.
  intros started asked. unfold main. step.
  destruct (Fs.resolve fs (wallpaper_script_path w)) as [script|e] eqn:Hresolve; step.
  2: { left. by exists e. }
  right. destruct (Fs.is_file fs script) eqn:Hfile; step.
  2: { left. by exists script. }
  right. unfold try_except.
  pose proof (get_image_listing_state w api_key
                (State fs [EvPrint "Getting daily-image listing"])) as Hst.
  pose proof (get_image_listing_outcome w api_key
                (State fs [EvPrint "Getting daily-image listing"]) (State fs [])) as Hout.
  pose proof (get_image_listing_no_exit w api_key
                (State fs [EvPrint "Getting daily-image listing"])) as Hexit.
  destruct (get_image_listing w api_key (State fs [EvPrint "Getting daily-image listing"]))
    as [[listing|e|c] st1]; simpl in Hst, Hout, Hexit; subst st1.
  - right. step. destruct (ImageListing.is_image listing) eqn:Himage; step.
    + right. by exists script, listing.
    + left. by exists script, listing.
  - left. step. by exists script, e.
  - by destruct (Hexit c).
Qed.

(** X5. When the fetch raises, whatever it raises, [main] prints "Failed to
    get image listing: " followed by the text of the exception and exits
    with status 1: the run has sent the one GET of the fetch, has left the
    disk as it was and has not invoked the wallpaper script. *)
Theorem listing_failure_reported (w : world) (api_key : string) (fs : filesystem)
    (script : path) (e : exn) :
  Fs.resolve fs (wallpaper_script_path w) = Ok script ->
  Fs.is_file fs script = true ->
  fst (get_image_listing w api_key (State fs [])) = Raise e ->
  main w (Some api_key) (State fs [])
  = (SysExit 1,
     State fs [EvPrint "Getting daily-image listing";
               EvGet ApodEndpoint (PStr (api_url ++ api_key));
               EvPrint ("Failed to get image listing: " ++ exn_str w e)]).
Proof.
  intros Hresolve Hfile Hfetch.
  destruct (main_outcomes w api_key fs)
    as [(e' & H & _)|[(s & H1 & H2 & _)|[(s & e' & _ & _ & H & ->)
       |[(s & l & _ & _ & H & _)|(s & l & _ & _ & H & _)]]]]; try congruence.
Qed.

Lemma listing_failure_reported_witness :
  main Cases.offline (Some "KEY") (State Sample.disk [])
  = (SysExit 1,
     State Sample.disk
       [EvPrint "Getting daily-image listing";
        EvGet ApodEndpoint (PStr (api_url ++ "KEY"));
        EvPrint ("Failed to get image listing: "
                 ++ exn_str Cases.offline (RequestException "no route to host"))]).
Proof.
  apply (listing_failure_reported Cases.offline "KEY" Sample.disk
           ["setWallpaper.sh"; "apod"; "user"; "home"]
           (RequestException "no route to host")).
  - vm_compute. reflexivity.
  - vm_compute. reflexivity.
  - vm_compute. reflexivity.
Defined.

(* ===================================================================== *)
(** * main: when the download or the write fails *)
(* ===================================================================== *)

Lemma exists_dir fs p : Fs.node_at fs p = Some Dir -> Fs.exists_ fs p = true.
Proof. intros H. unfold Fs.exists_, Fs.stat. by rewrite (walk_dir _ _ _ H). Qed.

Lemma exists_missing fs p : Fs.node_at fs p = None -> Fs.exists_ fs p = false.
Proof. intros H. unfold Fs.exists_, Fs.stat. by rewrite (walk_missing _ _ _ H). Qed.

(** [mkdir] without [exist_ok] succeeds only where there was nothing, and
    leaves a directory there. *)
Lemma mkdir_parents_made fs p fs1 :
  Fs.mkdir_parents fs p false = Ok fs1 ->
  Fs.exists_ fs p = false /\ Fs.node_at fs1 p = Some Dir /\
  (forall q, fs1 !! q = fs !! q \/ (fs !! q = None /\ fs1 !! q = Some Dir)).
Proof.
  intros Hmk. apply mkdir_parents_inv in Hmk as [Hq Hp].
  destruct (Hp eq_refl) as (Hne & Hnone & Hdir).
  destruct p as [|name parent]; [done|]. split; [by apply exists_missing|].
  split; [done|]. intros q. destruct (Hq q) as [?|(? & ? & _)]; auto.
Qed.

(** With a script and the listing of an image whose save directory is not
    there, [main] is the download and the writes, then the invocation. *)
Lemma main_downloads w api_key fs script listing s :
  Fs.resolve fs (wallpaper_script_path w) = Ok script ->
  Fs.is_file fs script = true ->
  fst (get_image_listing w api_key (State fs [])) = Return listing ->
  ImageListing.is_image listing = true ->
  ImageListing.save_name w listing = Ok s ->
  Fs.exists_ fs (joinpath (images_save_dir w) s) = false ->
  main w (Some api_key) (State fs []) =
  let argv := [path_str script; path_str (joinpath (links_save_dir w) s)] in
  match download_and_save w listing (joinpath (images_save_dir w) s)
          (joinpath (links_save_dir w) s)
          (State fs [EvPrint "Getting daily-image listing";
                     EvGet ApodEndpoint (PStr (api_url ++ api_key));
                     EvPrint (tab ++ "Title: " ++ py_str w (ImageListing.title listing));
                     EvPrint "Downloading image"]) with
  | (Return _, st') =>
      (match subprocess_run w argv with Some e => Raise e | None => Return tt end,
       State (files st') (trace st' ++ [EvPrint "Setting wallpaper"; EvRun argv]))
  | (Raise e, st') => (Raise e, st')
  | (SysExit c, st') => (SysExit c, st')
  end.
Proof.
  intros Hresolve Hfile Hlisting Himage Hname Habsent.
  rewrite (main_reaches w api_key fs script listing Hresolve Hfile Hlisting Himage).
  rewrite save_and_set_wallpaper_run, Hname. simpl. by rewrite Habsent.
Qed.

(** X6. When the GET of the image raises (or answers None), nothing of
    [main] catches it: the run ends with that exception, after the save
    directory has been made.  The disk has gained directories only, the
    save directory among them, no file and no link; the wallpaper script
    has not been invoked. *)
Theorem download_failure_leaves_directory (w : world) (api_key : string)
    (fs fs1 : filesystem) (script : path) (listing : ImageListing.t) (s : string)
    (e : exn) :
  Fs.resolve fs (wallpaper_script_path w) = Ok script ->
  Fs.is_file fs script = true ->
  fst (get_image_listing w api_key (State fs [])) = Return listing ->
  ImageListing.is_image listing = true ->
  ImageListing.save_name w listing = Ok s ->
  Fs.mkdir_parents fs (joinpath (images_save_dir w) s) false = Ok fs1 ->
  requests_get w (ImageListing.url listing) = Err e \/
  (requests_get w (ImageListing.url listing) = Ok None /\
   e = Exception "Failed to hit image endpoint") ->
  main w (Some api_key) (State fs [])
  = (Raise e,
     State fs1 [EvPrint "Getting daily-image listing";
                EvGet ApodEndpoint (PStr (api_url ++ api_key));
                EvPrint (tab ++ "Title: " ++ py_str w (ImageListing.title listing));
                EvPrint "Downloading image";
                EvGet ImageEndpoint (ImageListing.url listing)]) /\
  Fs.exists_ fs1 (joinpath (images_save_dir w) s) = true /\
  (forall p, fs1 !! p = fs !! p \/ (fs !! p = None /\ fs1 !! p = Some Dir)).
Proof.
  intros Hresolve Hfile Hlisting Himage Hname Hmkdir Hget.
  destruct (mkdir_parents_made _ _ _ Hmkdir) as (Habsent & Hdir & Hq).
  split; [|split; [by apply exists_dir|done]].
  rewrite (main_downloads w api_key fs script listing s) by done.
  rewrite download_and_save_run. simpl. rewrite Hmkdir.
  by destruct Hget as [->|[-> ->]].
Qed.

Lemma download_failure_leaves_directory_witness :
  let listing :=
    ImageListing.Build (PStr "2024-01-01") (PStr "E") (PStr "image") (PStr "T")
      (PStr "http://unreachable/pic.jpg") in
  let w := Sample.machine (PDict (<["hdurl" := PStr "http://unreachable/pic.jpg"]> Sample.fields)) in
  main w (Some "KEY") (State Sample.bare_disk [])
  = (Raise (RequestException "unreachable"),
     State Sample.bare_disk_with_save_dir
       [EvPrint "Getting daily-image listing";
        EvGet ApodEndpoint (PStr (api_url ++ "KEY"));
        EvPrint (tab ++ "Title: " ++ py_str w (ImageListing.title listing));
        EvPrint "Downloading image";
        EvGet ImageEndpoint (ImageListing.url listing)]) /\
  Fs.exists_ Sample.bare_disk_with_save_dir
    (joinpath (images_save_dir w) "2024-01-01_pic.jpg") = true /\
  (forall p, Sample.bare_disk_with_save_dir !! p = Sample.bare_disk !! p \/
             (Sample.bare_disk !! p = None /\
              Sample.bare_disk_with_save_dir !! p = Some Dir)).
Proof.
  apply (download_failure_leaves_directory
           (Sample.machine (PDict (<["hdurl" := PStr "http://unreachable/pic.jpg"]> Sample.fields)))
           "KEY" Sample.bare_disk Sample.bare_disk_with_save_dir
           ["setWallpaper.sh"; "apod"; "user"; "home"]
           (ImageListing.Build (PStr "2024-01-01") (PStr "E") (PStr "image") (PStr "T")
              (PStr "http://unreachable/pic.jpg"))
           "2024-01-01_pic.jpg" (RequestException "unreachable")).
  - vm_compute. reflexivity.
  - vm_compute. reflexivity.
  - vm_compute. reflexivity.
  - reflexivity.
  - reflexivity.
  - exact (proj1 sample_mkdir).
  - left. reflexivity.
Defined.

(** The suffix is refused when what follows the last dot of the URL is
    empty or holds a "/". *)
Lemma with_suffix_refused p e :
  e = "" \/ has_char "/" e = true ->
  with_suffix p ("." ++ e) = Err ValueError.
Proof.
  intros [->|He]; [done|]. unfold with_suffix.
  change (has_char "/" ("." ++ e)) with (has_char "/" e). by rewrite He.
Qed.

(** X7. A URL without a usable extension: when what follows its last dot is
    empty or holds a "/" (as in http://x.y/pic, or when the URL ends in a
    dot or is empty), the image is downloaded and then [with_suffix] raises
    ValueError, which nothing catches.  The save directory has been made;
    no image, description or link is written. *)
Theorem bad_extension_raises (w : world) (api_key : string) (fs fs1 : filesystem)
    (script : path) (listing : ImageListing.t) (u s e : string) (r : response) :
  Fs.resolve fs (wallpaper_script_path w) = Ok script ->
  Fs.is_file fs script = true ->
  fst (get_image_listing w api_key (State fs [])) = Return listing ->
  ImageListing.is_image listing = true ->
  ImageListing.url listing = PStr u ->
  ImageListing.save_name w listing = Ok s ->
  Fs.mkdir_parents fs (joinpath (images_save_dir w) s) false = Ok fs1 ->
  requests_get w (PStr u) = Ok (Some r) ->
  list.last (split "." u) = Some e ->
  e = "" \/ has_char "/" e = true ->
  main w (Some api_key) (State fs [])
  = (Raise ValueError,
     State fs1 [EvPrint "Getting daily-image listing";
                EvGet ApodEndpoint (PStr (api_url ++ api_key));
                EvPrint (tab ++ "Title: " ++ py_str w (ImageListing.title listing));
                EvPrint "Downloading image";
                EvGet ImageEndpoint (PStr u)]) /\
  (forall p, fs1 !! p = fs !! p \/ (fs !! p = None /\ fs1 !! p = Some Dir)).
Proof.
  intros Hresolve Hfile Hlisting Himage Hurl Hname Hmkdir Hget Hlast He.
  destruct (mkdir_parents_made _ _ _ Hmkdir) as (Habsent & Hdir & Hq).
  split; [|done].
  rewrite (main_downloads w api_key fs script listing s) by done.
  rewrite download_and_save_run. simpl.
  rewrite Hmkdir, Hurl, Hget, extension_of_url, Hlast.
  by rewrite (with_suffix_refused _ _ He).
Qed.

Lemma bad_extension_raises_witness :
  let listing :=
    ImageListing.Build (PStr "2024-01-01") (PStr "E") (PStr "image") (PStr "T")
      (PStr "http://x.y/pic") in
  let w := Cases.machine (PDict Cases.no_extension) in
  let made :=
    match Fs.mkdir_parents Sample.bare_disk ["2024-01-01_pic"; "APOD"; "user"; "home"] false with
    | Ok fs => fs
    | Err _ => Sample.bare_disk
    end in
  main w (Some "KEY") (State Sample.bare_disk [])
  = (Raise ValueError,
     State made
       [EvPrint "Getting daily-image listing";
        EvGet ApodEndpoint (PStr (api_url ++ "KEY"));
        EvPrint (tab ++ "Title: " ++ py_str w (ImageListing.title listing));
        EvPrint "Downloading image";
        EvGet ImageEndpoint (PStr "http://x.y/pic")]) /\
  (forall p, made !! p = Sample.bare_disk !! p \/
             (Sample.bare_disk !! p = None /\ made !! p = Some Dir)).
Proof.
  apply (bad_extension_raises (Cases.machine (PDict Cases.no_extension)) "KEY"
           Sample.bare_disk
           (match Fs.mkdir_parents Sample.bare_disk
                    ["2024-01-01_pic"; "APOD"; "user"; "home"] false with
            | Ok fs => fs
            | Err _ => Sample.bare_disk
            end)
           ["setWallpaper.sh"; "apod"; "user"; "home"]
           (ImageListing.Build (PStr "2024-01-01") (PStr "E") (PStr "image") (PStr "T")
              (PStr "http://x.y/pic"))
           "http://x.y/pic" "2024-01-01_pic" "y/pic"
           (Response Sample.picture (Err ValueError))).
  - vm_compute. reflexivity.
  - vm_compute. reflexivity.
  - vm_compute. reflexivity.
  - reflexivity.
  - reflexivity.
  - reflexivity.
  - assert (Hok : match Fs.mkdir_parents Sample.bare_disk
                          ["2024-01-01_pic"; "APOD"; "user"; "home"] false with
                  | Ok _ => true
                  | Err _ => false
                  end = true) by (vm_compute; reflexivity).
    change (joinpath (images_save_dir (Cases.machine (PDict Cases.no_extension)))
              "2024-01-01_pic")
      with ["2024-01-01_pic"; "APOD"; "user"; "home"].
    by destruct (Fs.mkdir_parents _ _ _).
  - reflexivity.
  - reflexivity.
  - right. reflexivity.
Defined.

(** X8. A response without "hdurl": the listing has the empty URL, its save
    directory is ~/APOD joined with the date and an underscore, and whatever
    the network answers to the empty URL the run raises after making that
    directory: [requests.get] raises, or answers None, or the extension "."
    is refused.  No file is written and the wallpaper script is not
    invoked. *)
Theorem missing_hdurl_raises (w : world) (api_key : string) (fs fs1 : filesystem)
    (script : path) (r : response) (d : gmap string pyval) (day : string) :
  Fs.resolve fs (wallpaper_script_path w) = Ok script ->
  Fs.is_file fs script = true ->
  requests_get w (PStr (api_url ++ api_key)) = Ok (Some r) ->
  resp_json r = Ok (PDict d) ->
  d !! "error" = None ->
  d !! "media_type" = Some (PStr "image") ->
  d !! "date" = Some (PStr day) ->
  d !! "hdurl" = None ->
  Fs.mkdir_parents fs (joinpath (images_save_dir w) (day ++ "_")) false = Ok fs1 ->
  let run := main w (Some api_key) (State fs []) in
  (exists e, fst run = Raise e) /\
  files (snd run) = fs1 /\
  downloads (trace (snd run)) = [PStr ""] /\
  invocations (trace (snd run)) = [] /\
  (forall p, fs1 !! p = fs !! p \/ (fs !! p = None /\ fs1 !! p = Some Dir)).
Proof.
  intros Hresolve Hfile Hget Hjson Herror Hmedia Hday Hurl Hmkdir run.
  pose proof (get_image_listing_dict w api_key (State fs []) r d Hget Hjson) as Hlisting.
  rewrite Herror in Hlisting. unfold ImageListing.init in Hlisting.
  rewrite from_api_resp_json_dict, Hmedia, Hday, Hurl in Hlisting.
  destruct (mkdir_parents_made _ _ _ Hmkdir) as (Habsent & Hdir & Hq).
  subst run.
  rewrite (main_downloads w api_key fs script _ (day ++ "_") Hresolve Hfile Hlisting)
    by done.
  rewrite download_and_save_run. simpl. rewrite Hmkdir.
  destruct (requests_get w (PStr "")) as [[r'|]|e]; simpl; eauto 10.
Qed.

Lemma missing_hdurl_raises_witness :
  let run := main (Sample.machine (PDict Cases.no_hdurl)) (Some "KEY")
               (State Sample.bare_disk []) in
  let made :=
    match Fs.mkdir_parents Sample.bare_disk ["2024-01-01_"; "APOD"; "user"; "home"] false with
    | Ok fs => fs
    | Err _ => Sample.bare_disk
    end in
  (exists e, fst run = Raise e) /\
  files (snd run) = made /\
  downloads (trace (snd run)) = [PStr ""] /\
  invocations (trace (snd run)) = [] /\
  (forall p, made !! p = Sample.bare_disk !! p \/
             (Sample.bare_disk !! p = None /\ made !! p = Some Dir)).
Proof.
  apply (missing_hdurl_raises (Sample.machine (PDict Cases.no_hdurl)) "KEY"
           Sample.bare_disk
           (match Fs.mkdir_parents Sample.bare_disk
                    ["2024-01-01_"; "APOD"; "user"; "home"] false with
            | Ok fs => fs
            | Err _ => Sample.bare_disk
            end)
           ["setWallpaper.sh"; "apod"; "user"; "home"]
           (Response [] (Ok (PDict Cases.no_hdurl))) Cases.no_hdurl "2024-01-01").
  - vm_compute. reflexivity.
  - vm_compute. reflexivity.
  - reflexivity.
  - reflexivity.
  - vm_compute. reflexivity.
  - vm_compute. reflexivity.
  - vm_compute. reflexivity.
  - vm_compute. reflexivity.
  - assert (Hok : match Fs.mkdir_parents Sample.bare_disk
                          ["2024-01-01_"; "APOD"; "user"; "home"] false with
                  | Ok _ => true
                  | Err _ => false
                  end = true) by (vm_compute; reflexivity).
    change (joinpath (images_save_dir (Sample.machine (PDict Cases.no_hdurl)))
              ("2024-01-01" ++ "_"))
      with ["2024-01-01_"; "APOD"; "user"; "home"].
    by destruct (Fs.mkdir_parents _ _ _).
Defined.

(* ===================================================================== *)
(** * main: one run after another *)
(* ===================================================================== *)

(** Where following links stops there is a node that is not a link, or
    nothing. *)
Lemma walk_found fuel : forall fs p q n,
  Fs.walk fuel fs p = Fs.Found q n -> Fs.node_at fs q = Some n.
Proof.
  induction fuel as [|fuel IH]; intros fs p q n; unfold Fs.walk; fold Fs.walk;
    destruct (Fs.node_at fs p) as [[| |t]|] eqn:Hp; try done;
    try (by intros [= <- <-]).
  apply IH.
Qed.

Lemma walk_missing_inv fuel : forall fs p q,
  Fs.walk fuel fs p = Fs.Missing q -> Fs.node_at fs q = None.
Proof.
  induction fuel as [|fuel IH]; intros fs p q; unfold Fs.walk; fold Fs.walk;
    destruct (Fs.node_at fs p) as [[| |t]|] eqn:Hp; try done;
    try (by intros [= <-]).
  apply IH.
Qed.

Lemma walk_file_found fuel fs p c :
  Fs.node_at fs p = Some (File c) -> Fs.walk fuel fs p = Fs.Found p (File c).
Proof. intros H. destruct fuel; unfold Fs.walk; by rewrite H. Qed.

Lemma node_at_insert_ne fs p q n :
  p <> q -> Fs.node_at (<[p := n]> fs) q = Fs.node_at fs q.
Proof. intros Hne. destruct q; [done|]. simpl. by rewrite lookup_insert_ne. Qed.

(** Writing a file and making a link leave the directories in place. *)
Lemma write_file_keeps_dir fs p c fs' d :
  Fs.write_file fs p c = Ok fs' ->
  Fs.node_at fs d = Some Dir -> Fs.node_at fs' d = Some Dir.
Proof.
  unfold Fs.write_file. intros Hwrite Hd.
  destruct (Fs.walk Fs.max_links fs p) as [q [| |t]|q|] eqn:Hwalk; try done.
  - injection Hwrite as <-. apply walk_found in Hwalk.
    rewrite node_at_insert_ne; [done|]. intros ->. congruence.
  - apply walk_missing_inv in Hwalk. unfold Fs.create in Hwrite.
    destruct q as [|name parent]; [done|].
    destruct (Fs.check_parent fs parent) as [[]|e]; simpl in Hwrite; [|done].
    injection Hwrite as <-. rewrite node_at_insert_ne; [done|]. intros <-. congruence.
Qed.

Lemma symlink_to_keeps_dir fs link target fs' d :
  Fs.symlink_to fs link target = Ok fs' ->
  Fs.node_at fs d = Some Dir -> Fs.node_at fs' d = Some Dir.
Proof.
  unfold Fs.symlink_to. intros Hlink Hd.
  destruct link as [|name parent]; [done|].
  destruct (Fs.check_parent fs parent) as [[]|e]; simpl in Hlink; [|done].
  destruct (fs !! (name :: parent)) eqn:Hfree; [done|]. injection Hlink as <-.
  rewrite node_at_insert_ne; [done|]. intros <-. simpl in Hd. congruence.
Qed.

(** What the download block does to the trace and to the save directory:
    it stops at [mkdir] with the state as it was, or it has made the
    directory, sent its one GET, and the directory is there when it ends. *)
Lemma download_and_save_effect w listing dir link st :
  (exists e, download_and_save w listing dir link st = (Raise e, st)) \/
  (exists o fs',
     download_and_save w listing dir link st
     = (o, State fs' (trace st ++ [EvGet ImageEndpoint (ImageListing.url listing)])) /\
     (forall c, o <> SysExit c) /\
     Fs.node_at fs' dir = Some Dir).
Proof.
  rewrite download_and_save_run.
  destruct (Fs.mkdir_parents (files st) dir false) as [fs1|e] eqn:Hmkdir; [|left; eauto].
  right. apply mkdir_parents_made in Hmkdir as (_ & Hdir & _). simpl.
  destruct (requests_get w _) as [[r|]|e]; [|by eauto|by eauto].
  destruct (mbind _ _) as [extension|e]; [|by eauto].
  destruct (with_suffix _ _) as [image_file|e]; [|by eauto].
  destruct (Fs.write_file fs1 _ _) as [fs2|e] eqn:Hwrite1; [|by eauto].
  pose proof (write_file_keeps_dir _ _ _ _ _ Hwrite1 Hdir) as Hdir2.
  destruct (Fs.write_file fs2 _ _) as [fs3|e] eqn:Hwrite2; [|by eauto].
  pose proof (write_file_keeps_dir _ _ _ _ _ Hwrite2 Hdir2) as Hdir3.
  destruct (Fs.symlink_to fs3 _ _) as [fs4|e] eqn:Hlink; [|by eauto].
  pose proof (symlink_to_keeps_dir _ _ _ _ _ Hlink Hdir3) as Hdir4.
  by eauto.
Qed.

(** X9. The cache check looks at the directory only.  After any run that
    has sent the GET of the image, whether it went on to write the files or
    raised on the way (download refused, suffix refused, no links
    directory), a second run in the same world finds the save directory,
    sends no GET to the image endpoint and leaves the disk as the first run
    left it. *)
Theorem no_second_download (w : world) (api_key : string) (fs : filesystem)
    (o : outcome unit) (st' : state) :
  main w (Some api_key) (State fs []) = (o, st') ->
  downloads (trace st') <> [] ->
  downloads (trace (snd (main w (Some api_key) (State (files st') [])))) = [] /\
  files (snd (main w (Some api_key) (State (files st') []))) = files st'.
Proof.
  intros Hmain Hdown.
  destruct (main_cases w api_key fs)
    as [(o' & tr & Hearly & _ & Hnone & _)
       |(script & listing & _ & _ & Hlisting & _ & Hreached)].
  { rewrite Hearly in Hmain. injection Hmain as <- <-. done. }
  rewrite Hreached, save_and_set_wallpaper_run in Hmain. simpl in Hmain.
  destruct (ImageListing.save_name w listing) as [s|err] eqn:Hname.
  2: { injection Hmain as <- <-. done. }
  destruct (Fs.exists_ fs (joinpath (images_save_dir w) s)).
  { injection Hmain as <- <-. done. }
  assert (Hthere : Fs.exists_ (files st') (joinpath (images_save_dir w) s) = true).
  { destruct (download_and_save_effect w listing (joinpath (images_save_dir w) s)
                (joinpath (links_save_dir w) s)
                (State fs [EvPrint "Getting daily-image listing";
                           EvGet ApodEndpoint (PStr (api_url ++ api_key));
                           EvPrint (tab ++ "Title: "
                                    ++ py_str w (ImageListing.title listing));
                           EvPrint "Downloading image"]))
      as [[e Hstop]|(o' & fs' & Hrun & Hexit & Hdir)].
    - rewrite Hstop in Hmain. injection Hmain as <- <-. done.
    - rewrite Hrun in Hmain. apply exists_dir.
      destruct o' as [[]|e|c]; injection Hmain as <- <-; done. }
  destruct (main_cases w api_key (files st'))
    as [(o2 & tr2 & -> & _ & Hnone2 & _)
       |(script2 & listing2 & _ & _ & Hlisting2 & _ & ->)]; [done|].
  assert (listing2 = listing) as ->.
  { rewrite (get_image_listing_outcome w api_key _ (State fs [])) in Hlisting2.
    congruence. }
  rewrite save_and_set_wallpaper_run, Hname. simpl. by rewrite Hthere.
Qed.

Lemma no_second_download_witness :
  let first := main Sample.w (Some "KEY") (State Sample.bare_disk []) in
  downloads (trace (snd (main Sample.w (Some "KEY") (State (files (snd first)) [])))) = [] /\
  files (snd (main Sample.w (Some "KEY") (State (files (snd first)) [])))
  = files (snd first).
Proof.
  apply (no_second_download Sample.w "KEY" Sample.bare_disk
           (fst (main Sample.w (Some "KEY") (State Sample.bare_disk [])))
           (snd (main Sample.w (Some "KEY") (State Sample.bare_disk [])))).
  - by destruct (main Sample.w (Some "KEY") (State Sample.bare_disk [])).
  - vm_compute. discriminate.
Defined.

(** What the second run of the example does on the disk the first one left
    without a link: it invokes the wallpaper script on a link that is not
    there. *)
Example second_run_without_link :
  let first := main Sample.w (Some "KEY") (State Sample.bare_disk []) in
  let second := main Sample.w (Some "KEY") (State (files (snd first)) []) in
  fst first = Raise FileNotFoundError /\
  fst second = Return tt /\
  invocations (trace (snd second))
  = [["/home/user/apod/setWallpaper.sh"; "/home/user/Pictures/APOD/2024-01-01_pic.jpg"]] /\
  files (snd second) !! Sample.link = None.
Proof. repeat split; by vm_compute. Qed.

(* ===================================================================== *)
(** * main: what every run has in common *)
(* ===================================================================== *)


(** X11. The wallpaper script is invoked at most once, as the last thing
    [main] does, on the resolved path of the script and the path of the
    link, ~/Pictures/APOD joined with the save_name.  A run that does not
    invoke it ends with status 1; a run that does ends as the invocation
    does: [main] returns only when the script has been run. *)
Theorem wallpaper_invocation (w : world) (api_key : string) (fs : filesystem) :
  let run := main w (Some api_key) (State fs []) in
  (invocations (trace (snd run)) = [] /\ exit_status (fst run) = 1%Z) \/
  (exists script listing s,
     Fs.resolve fs (wallpaper_script_path w) = Ok script /\
     fst (get_image_listing w api_key (State fs [])) = Return listing /\
     ImageListing.save_name w listing = Ok s /\
     let argv := [path_str script; path_str (joinpath (links_save_dir w) s)] in
     invocations (trace (snd run)) = [argv] /\
     list.last (trace (snd run)) = Some (EvRun argv) /\
     fst run = match subprocess_run w argv with Some e => Raise e | None => Return tt end).
Proof.
  destruct (main_outcomes w api_key fs)
    as [(e & _ & ->)|[(s & _ & _ & ->)|[(s & e & _ & _ & _ & ->)
       |[(s & l & _ & _ & _ & _ & ->)|(script & listing & Hscript & _ & Hlisting & _ & ->)]]]];
    simpl; try (by left).
  rewrite save_and_set_wallpaper_run. simpl.
  destruct (ImageListing.save_name w listing) as [s|err] eqn:Hname; [|by left].
  destruct (Fs.exists_ fs _).
  { right. by exists script, listing, s. }
  destruct (download_and_save_effect w listing (joinpath (images_save_dir w) s)
              (joinpath (links_save_dir w) s)
              (State fs [EvPrint "Getting daily-image listing";
                         EvGet ApodEndpoint (PStr (api_url ++ api_key));
                         EvPrint (tab ++ "Title: " ++ py_str w (ImageListing.title listing));
                         EvPrint "Downloading image"]))
    as [[e ->]|(o' & fs' & -> & Hexit & _)]; [by left|].
  destruct o' as [[]|e|c]; [|by left|by destruct (Hexit c)].
  right. by exists script, listing, s.
Qed.

(* ===================================================================== *)
(** * The entry point: the key file *)
(* ===================================================================== *)

Arguments main : simpl never.

Lemma lstrip_head c s : starts_with c (lstrip c s) = false.
Proof.
  induction s as [|a r IH]; simpl; [done|].
  destruct (Ascii.eqb a c) eqn:Ha; [done|]. simpl. exact Ha.
Qed.

Lemma rstrip_head c s : starts_with c s = false -> starts_with c (rstrip c s) = false.
Proof.
  destruct s as [|a r]; simpl; [done|]. intros Ha.
  destruct (rstrip c r); simpl; [|done]. by rewrite Ha.
Qed.

Lemma rstrip_tail c s : ends_with c (rstrip c s) = false.
Proof.
  induction s as [|a r IH]; simpl; [done|].
  destruct (rstrip c r) as [|b r'] eqn:Hr.
  - destruct (Ascii.eqb a c) eqn:Ha; simpl; [done|exact Ha].
  - exact IH.
Qed.

Lemma lstrip_id c s : starts_with c s = false -> lstrip c s = s.
Proof. destruct s as [|a r]; simpl; [done|]. by intros ->. Qed.

Lemma rstrip_id c s : ends_with c s = false -> rstrip c s = s.
Proof.
  induction s as [|a r IH]; simpl; [done|].
  destruct r as [|b r'].
  - simpl. by intros ->.
  - intros H. by rewrite (IH H).
Qed.

(** [strip] leaves no [c] at either end and leaves alone a string that has
    none there. *)
Lemma strip_ends c s :
  starts_with c (strip c s) = false /\ ends_with c (strip c s) = false /\
  (starts_with c s = false -> ends_with c s = false -> strip c s = s).
Proof.
  unfold strip. split; [|split].
  - apply rstrip_head, lstrip_head.
  - apply rstrip_tail.
  - intros Hs He. by rewrite (lstrip_id _ _ Hs), (rstrip_id _ _ He).
Qed.

(** The state [save_and_set_wallpaper] ends in begins with the trace it
    started from. *)
Lemma save_and_set_wallpaper_trace w script listing st :
  exists rest,
    trace (snd (save_and_set_wallpaper w script listing st)) = (trace st ++ rest)%list.
Proof.
  rewrite save_and_set_wallpaper_run. simpl.
  destruct (ImageListing.save_name w listing) as [s|err]; [|by eexists].
  destruct (Fs.exists_ (files st) _); [by eexists|].
  destruct (download_and_save_effect w listing (joinpath (images_save_dir w) s)
              (joinpath (links_save_dir w) s)
              (State (files st) (trace st ++ [EvPrint "Downloading image"])))
    as [[e ->]|(o' & fs' & -> & _ & _)]; [by eexists|].
  destruct o' as [[]|e|c]; simpl; rewrite <- ?app_assoc; by eexists.
Qed.

(** X12. Started as a program without ./api_key.txt, the script raises
    FileNotFoundError at once: nothing is printed, nothing is sent, the disk
    is as it was, and the message "No API key provided" of [main] is not
    what the user sees. *)
Theorem entry_without_key_file (w : world) (decode : list byte -> result string)
    (fs : filesystem) :
  Fs.node_at fs (api_key_path w) = None ->
  script_entry w decode (State fs []) = (Raise FileNotFoundError, State fs []).
Proof.
  intros Hnone. unfold script_entry. step. unfold open_read.
  by rewrite (walk_missing _ _ _ Hnone).
Qed.

Lemma entry_without_key_file_witness :
  script_entry Sample.w Cases.no_codec (State Sample.disk [])
  = (Raise FileNotFoundError, State Sample.disk []).
Proof.
  apply (entry_without_key_file Sample.w Cases.no_codec Sample.disk).
  vm_compute. reflexivity.
Defined.

(** X13. Started as a program with a key file and a wallpaper script, the
    script sends its first GET with, for key, the text of the file without
    the newlines at its ends: that key has no newline at either end, and it
    is the text itself when the text has none there.  An empty file, or one
    of newlines only, is not a missing key: the GET goes out with the empty
    key. *)
Theorem entry_sends_stripped_key (w : world) (decode : list byte -> result string)
    (fs : filesystem) (text : string) (script : path) :
  Fs.node_at fs (api_key_path w) = Some (File (Text text)) ->
  Fs.resolve fs (wallpaper_script_path w) = Ok script ->
  Fs.is_file fs script = true ->
  let key := strip newline (universal_newlines text) in
  starts_with newline key = false /\
  ends_with newline key = false /\
  (starts_with newline (universal_newlines text) = false ->
   ends_with newline (universal_newlines text) = false ->
   key = universal_newlines text) /\
  exists rest,
    trace (snd (script_entry w decode (State fs [])))
    = EvPrint "Getting daily-image listing"
      :: EvGet ApodEndpoint (PStr (api_url ++ key)) :: rest.
Proof.
  intros Hfile Hresolve Hscript key.
  destruct (strip_ends newline (universal_newlines text)) as (Hs & He & Hid).
  split; [done|]. split; [done|]. split; [done|].
  unfold script_entry. step. unfold open_read.
  rewrite (walk_file_found _ _ _ _ Hfile). step. fold key.
  destruct (main_outcomes w key fs)
    as [(e & H & _)|[(s & H1 & H2 & _)|[(s & e & _ & _ & _ & ->)
       |[(s & l & _ & _ & _ & _ & ->)|(s & listing & _ & _ & _ & _ & ->)]]]];
    try congruence; try (by eexists).
  destruct (save_and_set_wallpaper_trace w s listing
              (State fs [EvPrint "Getting daily-image listing";
                         EvGet ApodEndpoint (PStr (api_url ++ key));
                         EvPrint (tab ++ "Title: "
                                  ++ py_str w (ImageListing.title listing))]))
    as [rest ->].
  by eexists.
Qed.

Lemma entry_sends_stripped_key_witness :
  let key := strip newline (universal_newlines ("KEY" ++ nl)) in
  starts_with newline key = false /\
  ends_with newline key = false /\
  (starts_with newline (universal_newlines ("KEY" ++ nl)) = false ->
   ends_with newline (universal_newlines ("KEY" ++ nl)) = false ->
   key = universal_newlines ("KEY" ++ nl)) /\
  exists rest,
    trace (snd (script_entry Sample.w Cases.no_codec (State Cases.disk_with_key [])))
    = EvPrint "Getting daily-image listing"
      :: EvGet ApodEndpoint (PStr (api_url ++ key)) :: rest.
Proof.
  apply (entry_sends_stripped_key Sample.w Cases.no_codec Cases.disk_with_key
           ("KEY" ++ nl) ["setWallpaper.sh"; "apod"; "user"; "home"]).
  - vm_compute. reflexivity.
  - vm_compute. reflexivity.
  - vm_compute. reflexivity.
Defined.

(** The run of the example started as a program: the key of the file
    "KEY", newline, is sent as KEY. *)
Example entry_sample :
  let run := script_entry Sample.w Cases.no_codec (State Cases.disk_with_key []) in
  fst run = Return tt /\
  network_calls (trace (snd run))
  = [EvGet ApodEndpoint (PStr "https://api.nasa.gov/planetary/apod?api_key=KEY");
     EvGet ImageEndpoint (PStr "http://x/y/pic.jpg")].
Proof. vm_compute. done. Qed.

(* ===================================================================== *)
(** * main: the link it makes, and what it does not check *)
(* ===================================================================== *)

Lemma walk_link fuel fs p target :
  Fs.node_at fs p = Some (Link target) ->
  Fs.walk (S fuel) fs p = Fs.walk fuel fs target.
Proof. intros H. unfold Fs.walk at 1. fold Fs.walk. by rewrite H. Qed.

Lemma walk_self_link fuel fs p :
  Fs.node_at fs p = Some (Link p) -> Fs.walk fuel fs p = Fs.Loop.
Proof.
  intros H. induction fuel as [|fuel IH].
  - unfold Fs.walk. by rewrite H.
  - by rewrite (walk_link _ _ _ _ H).
Qed.

(** X14. The link of every run that writes one dangles.  On a well-formed
    disk, a run that downloads an image and goes on to invoke the wallpaper
    script has made the link point to <save dir>/image; no file is there
    (the image went to <save dir>/image.<ext>), the link does not resolve,
    and it is the path of that link that the wallpaper script was given. *)
Theorem link_always_dangles (w : world) (api_key : string) (fs : filesystem)
    (o : outcome unit) (st' : state) :
  Fs.wf fs ->
  main w (Some api_key) (State fs []) = (o, st') ->
  downloads (trace st') <> [] ->
  invocations (trace st') <> [] ->
  exists script listing s,
    Fs.resolve fs (wallpaper_script_path w) = Ok script /\
    fst (get_image_listing w api_key (State fs [])) = Return listing /\
    ImageListing.save_name w listing = Ok s /\
    let dir := joinpath (images_save_dir w) s in
    let link := joinpath (links_save_dir w) s in
    files st' !! link = Some (Link ("image" :: dir)) /\
    (forall c, files st' !! ("image" :: dir) <> Some (File c)) /\
    Fs.exists_ (files st') link = false /\
    invocations (trace st') = [[path_str script; path_str link]].
Proof.
  intros Hwf Hmain Hdown Hinvoked.
  destruct (main_cases w api_key fs)
    as [(o' & tr & Hearly & _ & Hnone & _)
       |(script & listing & Hscript & _ & Hlisting & _ & Hreached)].
  { rewrite Hearly in Hmain. injection Hmain as <- <-. done. }
  rewrite Hreached, save_and_set_wallpaper_run in Hmain. simpl in Hmain.
  destruct (ImageListing.save_name w listing) as [s|err] eqn:Hname.
  2: { injection Hmain as <- <-. done. }
  destruct (Fs.exists_ fs (joinpath (images_save_dir w) s)).
  { injection Hmain as <- <-. done. }
  rewrite download_and_save_run in Hmain. simpl in Hmain.
  assert (exists u, ImageListing.url listing = PStr u) as [u Hurl].
  { unfold ImageListing.save_name in Hname.
    destruct (ImageListing.url listing) as [u| | |]; try done. by exists u. }
  rewrite Hurl, extension_of_url, joinpath_image, joinpath_description in Hmain.
  set (dir := joinpath (images_save_dir w) s) in *.
  set (link := joinpath (links_save_dir w) s) in *.
  destruct (Fs.mkdir_parents fs dir false) as [fs1|err] eqn:Hmkdir.
  2: { injection Hmain as <- <-. done. }
  destruct (requests_get w (PStr u)) as [[r|]|err] eqn:Hget.
  2, 3: injection Hmain as <- <-; done.
  destruct (list.last (split "." u)) as [e|] eqn:Hlast.
  2: { injection Hmain as <- <-. done. }
  destruct (with_suffix ("image" :: dir) ("." ++ e)) as [image_file|err] eqn:Hsuffix.
  2: { injection Hmain as <- <-. done. }
  apply with_suffix_image_inv in Hsuffix as [-> Hslash].
  destruct (mkdir_parents_fresh fs dir fs1 ("image" ++ "." ++ e) Hwf Hmkdir) as [Hdir Himg].
  destruct (mkdir_parents_fresh fs dir fs1 "description.txt" Hwf Hmkdir) as [_ Hdesc].
  destruct (mkdir_parents_fresh fs dir fs1 "image" Hwf Hmkdir) as [_ Htarget].
  destruct (Fs.write_file fs1 _ _) as [fs2|err] eqn:Hwrite1.
  2: { injection Hmain as <- <-. done. }
  apply write_file_new_inv in Hwrite1; [|exact Himg]. subst fs2.
  destruct (Fs.write_file _ ("description.txt" :: dir) _) as [fs3|err] eqn:Hwrite2.
  2: { injection Hmain as <- <-. done. }
  apply write_file_new_inv in Hwrite2; [|by rewrite node_at_cons, lookup_insert_ne]. subst fs3.
  destruct (Fs.symlink_to _ link _) as [fs4|err] eqn:Hlink.
  2: { injection Hmain as <- <-. done. }
  assert (Hlinkne : link <> []).
  { intros E. rewrite E in Hlink. done. }
  apply symlink_to_inv in Hlink as [Hfree ->].
  injection Hmain as <- <-. simpl.
  exists script, listing, s.
  split; [done|]. split; [done|]. split; [done|].
  assert (Hne : "image" :: dir <> ("image" ++ "." ++ e) :: dir).
  { intros E. injection E as E. apply (f_equal String.length) in E. simpl in E. lia. }
  assert (Hat : Fs.node_at
                  (<[link := Link ("image" :: dir)]>
                     (<["description.txt" :: dir := File (Text (description w listing))]>
                        (<[("image" ++ "." ++ e) :: dir
                           := File (Bytes (resp_content r))]> fs1))) link
                = Some (Link ("image" :: dir))).
  { destruct link; [done|]. simpl. by rewrite lookup_insert_eq. }
  split; [by rewrite lookup_insert_eq|]. split; [|split; [|done]].
  - intros c. rewrite lookup_insert. case_decide; [done|].
    rewrite lookup_insert_ne by done. rewrite lookup_insert_ne by done.
    fold dir. by rewrite Htarget.
  - unfold Fs.exists_, Fs.stat, Fs.max_links.
    rewrite (walk_link _ _ _ _ Hat).
    destruct (decide (link = "image" :: dir)) as [E|E].
    + rewrite <- E in *. by rewrite (walk_self_link _ _ _ Hat).
    + rewrite walk_missing; [done|]. rewrite node_at_cons.
      rewrite lookup_insert_ne by done. rewrite lookup_insert_ne by done.
      by rewrite lookup_insert_ne.
Qed.

Lemma link_always_dangles_witness :
  let run := main Sample.w (Some "KEY") (State Sample.disk []) in
  exists script listing s,
    Fs.resolve Sample.disk (wallpaper_script_path Sample.w) = Ok script /\
    fst (get_image_listing Sample.w "KEY" (State Sample.disk [])) = Return listing /\
    ImageListing.save_name Sample.w listing = Ok s /\
    let dir := joinpath (images_save_dir Sample.w) s in
    let link := joinpath (links_save_dir Sample.w) s in
    files (snd run) !! link = Some (Link ("image" :: dir)) /\
    (forall c, files (snd run) !! ("image" :: dir) <> Some (File c)) /\
    Fs.exists_ (files (snd run)) link = false /\
    invocations (trace (snd run)) = [[path_str script; path_str link]].
Proof.
  apply (link_always_dangles Sample.w "KEY" Sample.disk
           (fst (main Sample.w (Some "KEY") (State Sample.disk [])))
           (snd (main Sample.w (Some "KEY") (State Sample.disk [])))).
  - apply (bool_decide_unpack (Fs.wf Sample.disk)). vm_compute. exact I.
  - by destruct (main Sample.w (Some "KEY") (State Sample.disk [])).
  - vm_compute. discriminate.
  - vm_compute. discriminate.
Defined.

Lemma links_dir_never_created_witness :
  files (snd (main Sample.w (Some "KEY") (State Sample.bare_disk [])))
    !! ("APOD" :: "Pictures" :: home Sample.w) = None.
Proof.
  apply (links_dir_never_created Sample.w "KEY" Sample.bare_disk).
  - apply (bool_decide_unpack (Fs.wf Sample.bare_disk)). vm_compute. exact I.
  - vm_compute. reflexivity.
  - intros listing H. vm_compute in H. injection H as <-. reflexivity.
Defined.

(** X16. An "hdurl" that is not a string (null, a number, an array) stops
    the run where the save_name is asked for: [split] is not a method of
    such a value, AttributeError is raised and not caught.  Nothing has been
    written, nothing has been downloaded. *)
Theorem non_string_hdurl_raises (w : world) (api_key : string) (fs : filesystem)
    (script : path) (listing : ImageListing.t) :
  Fs.resolve fs (wallpaper_script_path w) = Ok script ->
  Fs.is_file fs script = true ->
  fst (get_image_listing w api_key (State fs [])) = Return listing ->
  ImageListing.is_image listing = true ->
  (forall u, ImageListing.url listing <> PStr u) ->
  main w (Some api_key) (State fs [])
  = (Raise AttributeError,
     State fs [EvPrint "Getting daily-image listing";
               EvGet ApodEndpoint (PStr (api_url ++ api_key));
               EvPrint (tab ++ "Title: " ++ py_str w (ImageListing.title listing));
               EvPrint "Downloading image"]).
Proof.
  intros Hresolve Hfile Hlisting Himage Hurl.
  rewrite (main_reaches w api_key fs script listing Hresolve Hfile Hlisting Himage).
  rewrite save_and_set_wallpaper_run. unfold ImageListing.save_name.
  destruct (ImageListing.url listing) as [u| | |]; try done. by destruct (Hurl u).
Qed.

Lemma non_string_hdurl_raises_witness :
  let w := Sample.machine (PDict (<["hdurl" := PAtom "None"]> Sample.fields)) in
  let listing :=
    ImageListing.Build (PStr "2024-01-01") (PStr "E") (PStr "image") (PStr "T")
      (PAtom "None") in
  main w (Some "KEY") (State Sample.disk [])
  = (Raise AttributeError,
     State Sample.disk
       [EvPrint "Getting daily-image listing";
        EvGet ApodEndpoint (PStr (api_url ++ "KEY"));
        EvPrint (tab ++ "Title: " ++ py_str w (ImageListing.title listing));
        EvPrint "Downloading image"]).
Proof.
  apply (non_string_hdurl_raises
           (Sample.machine (PDict (<["hdurl" := PAtom "None"]> Sample.fields)))
           "KEY" Sample.disk ["setWallpaper.sh"; "apod"; "user"; "home"]
           (ImageListing.Build (PStr "2024-01-01") (PStr "E") (PStr "image") (PStr "T")
              (PAtom "None"))).
  - vm_compute. reflexivity.
  - vm_compute. reflexivity.
  - vm_compute. reflexivity.
  - reflexivity.
  - discriminate.
Defined.

(** X17. Whatever lies at ./setWallpaper.sh that is not a regular file, a
    directory or a link to nothing, is reported as a missing script: one
    print, status 1, no GET. *)
Theorem script_not_a_file (w : world) (api_key : string) (fs : filesystem)
    (script : path) :
  Fs.resolve fs (wallpaper_script_path w) = Ok script ->
  Fs.is_file fs script = false ->
  main w (Some api_key) (State fs [])
  = (SysExit 1, State fs [EvPrint "Wallpaper setting script not found"]).
Proof.
  intros Hresolve Hfile.
  destruct (main_outcomes w api_key fs)
    as [(e' & H & _)|[(s & H1 & H2 & ->)|[(s & e' & H1 & H2 & _)
       |[(s & l & H1 & H2 & _)|(s & l & H1 & H2 & _)]]]]; congruence.
Qed.

Lemma script_not_a_file_witness :
  main Sample.w (Some "KEY")
    (State (<[ ["setWallpaper.sh"; "apod"; "user"; "home"] := Dir ]> Sample.disk) [])
  = (SysExit 1,
     State (<[ ["setWallpaper.sh"; "apod"; "user"; "home"] := Dir ]> Sample.disk)
       [EvPrint "Wallpaper setting script not found"]).
Proof.
  apply (script_not_a_file Sample.w "KEY"
           (<[ ["setWallpaper.sh"; "apod"; "user"; "home"] := Dir ]> Sample.disk)
           ["setWallpaper.sh"; "apod"; "user"; "home"]).
  - vm_compute. reflexivity.
  - vm_compute. reflexivity.
Defined.
